(** * wiserHub: a shallow embedding of the Wiser heating hub facade

    The Python class [wiserHub] of [wiserHeatingAPI/wiserHub.py] keeps a cached
    copy of the hub's state document, derives a device-to-room index from it
    and sends PATCH requests back to the hub.  The methods are embedded as
    computations in a state-and-exception monad over the object's attributes
    and the log of HTTP requests issued so far.

    Conventions of the embedding:
    - a JSON object of the hub is a record whose field [k] holds what
      [obj.get("k")] returns in Python: [None] when the key is missing or
      null;
    - Python numbers used as temperatures are exact rationals ([Q]) in the
      commands, and hub set-points are integers ([Z]); module [Binary64] has
      the two temperature conversions on the interpreter's own numbers, with
      the products and quotients of binary64;
    - exceptions carry the format template of their message, the
      interpolated arguments are not kept;
    - logging is a write-only sink and is left out. *)

From stdpp Require Import gmap strings list.
From Stdlib Require Import Ascii QArith Qround Qabs Lqa.
From Stdlib Require PrimFloat FloatOps SpecFloat Uint63.

Local Open Scope Z_scope.

(** ** Module constants *)

(** A URL is kept as the template of the module constant together with the
    arguments of [str.format]. *)
Inductive FormatArg :=
| ArgStr (s : string)
| ArgInt (z : Z).

Record Url := format { template : string; format_args : list FormatArg }.

Definition WISERHUBURL : string := "http://{}/data/domain/".
Definition WISERNETWORKURL : string := "http://{}/data/network/".
Definition WISERSETROOMTEMP : string := "http://{}//data/domain/Room/{}".
Definition WISERROOM : string := "http://{}//data/domain/Room/{}".

Definition TEMP_MINIMUM : Q := 5.
Definition TEMP_MAXIMUM : Q := 30.
Definition TEMP_OFF : Q := -20.

(** ** Exceptions *)

Inductive Exception :=
(* classes of the module *)
| WiserNoDevicesFound (msg : string)
| WiserNotFound (msg : string)
| WiserNoRoomsFound (msg : string)
| WiserNoHotWaterFound (msg : string)
| WiserNoHeatingFound (msg : string)
| WiserRESTException (msg : string)
| WiserHubDataNull (msg : string)
| WiserHubAuthenticationException (msg : string)
| WiserHubTimeoutException (msg : string)
(* built-in exceptions *)
| ValueError (msg : string)
| AttributeError
| TypeError
| KeyError
| RecursionError
| JSONDecodeError
(* exceptions of the requests library *)
| requests_Timeout
| requests_HTTPError
| requests_ConnectionError.

(** ** The hub's documents *)

Module Room.
Record t := {
  id : option Z;
  Name : option string;
  ScheduleId : option Z;
  ScheduledSetPoint : option Z;
  RoomStatId : option Z;
  SmartValveIds : option (list Z)
}.
End Room.

Module Device.
Record t := { id : option Z; ProductType : option string }.
End Device.

Module RoomStat.
Record t := { id : option Z; SetPoint : option Z }.
End RoomStat.

Module HeatingChannel.
Record t := { id : option Z; HeatingRelayState : option string }.
End HeatingChannel.

Module SmartPlug.
Record t := {
  id : option Z;
  OutputState : option string;
  Mode : option string
}.
End SmartPlug.

(** A key that the code reads with [d["k"]] rather than [d.get("k")]: a
    missing key and a null value behave differently there. *)
Inductive entry (A : Type) :=
| Missing
| Null
| Value (a : A).
Arguments Missing {A}.
Arguments Null {A}.
Arguments Value {A} a.

Module HubData.
Record t := {
  Room : option (list Room.t);
  Device : option (list Device.t);
  HeatingChannel : option (list HeatingChannel.t);
  SmartPlug : option (list SmartPlug.t);
  RoomStat : entry (list RoomStat.t)
}.
End HubData.

Module Station.
Record t := { MdnsHostname : option string; MacAddress : option string }.
End Station.

Module NetworkData.
Record t := { Station : option Station.t }.
End NetworkData.

(** ** JSON bodies of the requests *)

#[warnings="-register-all"] Inductive Json :=
| JInt (z : Z)
| JStr (s : string)
| JDict (items : list (string * Json)).

(** ** HTTP *)

Inductive Request :=
| GET (url : Url)
| PATCH (url : Url) (json : Json).

Record Response := {
  status_code : Z;
  content : string
}.

(** [response.text] is the body of the response. *)
Definition text (r : Response) : string := content r.

Inductive Reply :=
| TimedOut
| ConnectionFailed
| Responded (r : Response).

(** The collaborators of the facade: the transport, which answers a request
    given everything sent so far (the request itself is the last element),
    and the JSON parser.  The parser returns [None] when it raises, and
    [Some None] for the JSON value [null]. *)
Record Collaborators := {
  respond : list Request → Reply;
  resp_json : Response → option (option HubData.t);
  json_loads : string → option (option NetworkData.t)
}.

(** ** The object and the monad *)

(** Values of [device2roomMap]. *)
Record RoomRef := { roomId : option Z; roomName : option string }.

Record wiserHub := {
  wiserHubData : option HubData.t;
  wiserNetworkData : option NetworkData.t;
  (* the attribute assigned by [refreshData]; [None] until then *)
  WiserNetworkData : option NetworkData.t;
  hubIP : string;
  hubSecret : string;
  device2roomMap : gmap Z RoomRef
}.

Record World := {
  self : wiserHub;
  sent : list Request
}.

Inductive Outcome (A : Type) :=
| Raise (e : Exception)
| Return (a : A).
Arguments Raise {A} e.
Arguments Return {A} a.

Definition M (A : Type) : Type := World → Outcome A * World.

#[export] Instance M_ret : MRet M := λ A a w, (Return a, w).

#[export] Instance M_bind : MBind M := λ A B f m w,
  match m w with
  | (Return a, w') => f a w'
  | (Raise e, w') => (Raise e, w')
  end.

Definition raise {A} (e : Exception) : M A := λ w, (Raise e, w).

(** [try: body except ...]: the handler says which exceptions it catches. *)
Definition try_except {A} (body : M A) (handler : Exception → option (M A)) : M A :=
  λ w,
    match body w with
    | (Raise e, w') =>
        match handler e with
        | Some h => h w'
        | None => (Raise e, w')
        end
    | r => r
    end.

Fixpoint for_each {A} (l : list A) (body : A → M unit) : M unit :=
  match l with
  | [] => mret tt
  | x :: rest => body x ;; for_each rest body
  end.

Definition get_self : M wiserHub := λ w, (Return (self w), w).

Definition modify_self (f : wiserHub → wiserHub) : M unit :=
  λ w, (Return tt, {| self := f (self w); sent := sent w |}).

Definition set_wiserHubData (v : option HubData.t) (o : wiserHub) : wiserHub :=
  {| wiserHubData := v;
     wiserNetworkData := wiserNetworkData o;
     WiserNetworkData := WiserNetworkData o;
     hubIP := hubIP o;
     hubSecret := hubSecret o;
     device2roomMap := device2roomMap o |}.

Definition set_WiserNetworkData (v : option NetworkData.t) (o : wiserHub) : wiserHub :=
  {| wiserHubData := wiserHubData o;
     wiserNetworkData := wiserNetworkData o;
     WiserNetworkData := v;
     hubIP := hubIP o;
     hubSecret := hubSecret o;
     device2roomMap := device2roomMap o |}.

(** [self.device2roomMap[k] = v] *)
Definition setitem_device2roomMap (k : Z) (v : RoomRef) (o : wiserHub) : wiserHub :=
  {| wiserHubData := wiserHubData o;
     wiserNetworkData := wiserNetworkData o;
     WiserNetworkData := WiserNetworkData o;
     hubIP := hubIP o;
     hubSecret := hubSecret o;
     device2roomMap := <[k := v]> (device2roomMap o) |}.

(** ** Strings and bytes *)

Definition lower_ascii (c : ascii) : ascii :=
  let n := N_of_ascii c in
  if ((65 <=? n) && (n <=? 90))%N then ascii_of_N (n + 32) else c.

(** [str.lower] on ASCII text. *)
Fixpoint lower (s : string) : string :=
  match s with
  | EmptyString => EmptyString
  | String c rest => String (lower_ascii c) (lower rest)
  end.

(** [re.sub(rb'[^\x20-\x7F]+', b'', content)]: bytes outside the range are
    dropped. *)
Fixpoint strip_non_printable (s : string) : string :=
  match s with
  | EmptyString => EmptyString
  | String c rest =>
      let n := N_of_ascii c in
      if ((32 <=? n) && (n <=? 127))%N
      then String c (strip_non_printable rest)
      else strip_non_printable rest
  end.

(** ** Temperatures *)

(** The conversions on exact rationals, as the commands below use them.  They
    give what the interpreter gives for an int, and for a float whose product
    by ten is exact; [Binary64], further down, has them on floats, with the
    rounding of each product and quotient. *)

(** [int(x)]: truncation toward zero. *)
Definition int (x : Q) : Z := Z.quot (Qnum x) (Z.pos (Qden x)).

(** [round(x)]: to the nearest integer, ties to the even one. *)
Definition round (x : Q) : Z :=
  let f := Qfloor x in
  match (x - inject_Z f ?= 1 # 2)%Q with
  | Lt => f
  | Gt => f + 1
  | Eq => if Z.even f then f else f + 1
  end.

(** [round(x, 1)]: to one decimal place. *)
Definition round1 (x : Q) : Q := (inject_Z (round (x * 10)) / 10)%Q.

Definition __toWiserTemp (temp : Q) : Z := int (temp * 10).

Definition __fromWiserTemp (temp : Z) : Q := round1 (inject_Z temp / 10).

Definition Qltb (a b : Q) : bool := negb (Qle_bool b a).

Definition __checkTempRange (temp : Q) : bool :=
  if negb (Qeq_bool temp TEMP_OFF)
     && (Qltb temp TEMP_MINIMUM || Qltb TEMP_MAXIMUM temp)
  then false
  else true.

(** ** The methods of [wiserHub] *)

Section Facade.

Context (env : Collaborators).

(** The interpreter's bound on nested calls: [refreshData] can re-enter
    itself through [getRooms] and [checkHubData]. *)
Context (recursionlimit : nat).

Definition requests_get (url : Url) : M Response := λ w,
  let log := sent w ++ [GET url] in
  let w' := {| self := self w; sent := log |} in
  match respond env log with
  | TimedOut => (Raise requests_Timeout, w')
  | ConnectionFailed => (Raise requests_ConnectionError, w')
  | Responded r => (Return r, w')
  end.

Definition requests_patch (url : Url) (json : Json) : M Response := λ w,
  let log := sent w ++ [PATCH url json] in
  let w' := {| self := self w; sent := log |} in
  match respond env log with
  | TimedOut => (Raise requests_Timeout, w')
  | ConnectionFailed => (Raise requests_ConnectionError, w')
  | Responded r => (Return r, w')
  end.

(** [resp.raise_for_status()] raises for the 4xx and 5xx statuses. *)
Definition raise_for_status (resp : Response) : M unit :=
  if (400 <=? status_code resp) && (status_code resp <? 600)
  then raise requests_HTTPError
  else mret tt.

(** [resp.json()] *)
Definition Response_json (resp : Response) : M (option HubData.t) :=
  match resp_json env resp with
  | None => raise JSONDecodeError
  | Some v => mret v
  end.

(** [d.get(k)] on the cached document: [None] has no method [get]. *)
Definition dict_get {A} (d : option HubData.t) (k : HubData.t → A) : M A :=
  match d with
  | Some d => mret (k d)
  | None => raise AttributeError
  end.

(** [self.wiserHubData.status_code]: neither [None] nor a parsed JSON
    document has such an attribute. *)
Definition getattr_status_code (d : option HubData.t) : M Z :=
  raise AttributeError.

(** [checkHubData] and [getRooms] call [refreshData], which calls
    [getRooms]: they are first written over the method they call. *)
Definition checkHubData_in (refreshData : M (option HubData.t)) : M unit :=
  o ← get_self;
  (if wiserHubData o is None then refreshData ;; mret tt else mret tt) ;;
  o ← get_self;
  if wiserHubData o is None
  then raise (WiserHubDataNull "Hub data null even after refresh, aborting request")
  else mret tt.

Definition getRooms_in (refreshData : M (option HubData.t)) : M (option (list Room.t)) :=
  checkHubData_in refreshData ;;
  o ← get_self;
  dict_get (wiserHubData o) HubData.Room.

Definition room_ref (room : Room.t) : RoomRef :=
  {| roomId := Room.id room; roomName := Room.Name room |}.

(** The body of the loop over the rooms in [refreshData]. *)
Definition index_room (room : Room.t) : M unit :=
  let roomStatId := Room.RoomStatId room in
  (if roomStatId is Some k
   then modify_self (setitem_device2roomMap k (room_ref room))
   else mret tt) ;;
  let smartValves := Room.SmartValveIds room in
  if smartValves is Some valves
  then for_each valves (λ valveId,
         modify_self (setitem_device2roomMap valveId (room_ref room)))
  else mret tt.

Definition refreshData_body (refreshData : M (option HubData.t)) : M (option HubData.t) :=
  try_except
    (o ← get_self;
     resp ← requests_get (format WISERHUBURL [ArgStr (hubIP o)]);
     raise_for_status resp ;;
     data ← Response_json resp;
     modify_self (set_wiserHubData data) ;;
     rooms ← getRooms_in refreshData;
     (if rooms is Some _
      then
        rooms ← getRooms_in refreshData;
        match rooms with
        | Some rooms => for_each rooms index_room
        | None => raise TypeError
        end
      else mret tt) ;;
     o ← get_self;
     resp ← requests_get (format WISERNETWORKURL [ArgStr (hubIP o)]);
     let responseContent := strip_non_printable (content resp) in
     match json_loads env responseContent with
     | None => raise JSONDecodeError
     | Some v => modify_self (set_WiserNetworkData v)
     end)
    (λ e,
       match e with
       | requests_Timeout =>
           Some (raise (WiserHubTimeoutException "The connection timed out."))
       | requests_HTTPError =>
           Some (o ← get_self;
                 status ← getattr_status_code (wiserHubData o);
                 if status =? 401
                 then raise (WiserHubAuthenticationException
                               "Authentication error.  Check secret key.")
                 else if status =? 404
                 then raise (WiserRESTException "Not Found.")
                 else raise (WiserRESTException "Unknown Error."))
       | requests_ConnectionError => Some (mret tt)
       | _ => None
       end) ;;
  o ← get_self;
  mret (wiserHubData o).

Fixpoint refreshData_depth (depth : nat) : M (option HubData.t) :=
  refreshData_body
    (match depth with
     | O => raise RecursionError
     | S d => refreshData_depth d
     end).

Definition refreshData : M (option HubData.t) :=
  refreshData_depth recursionlimit.

Definition __init__ (hubIP secret : string) : M unit :=
  modify_self (λ _,
    {| wiserHubData := None;
       wiserNetworkData := None;
       WiserNetworkData := None;
       hubIP := hubIP;
       hubSecret := secret;
       device2roomMap := ∅ |}) ;;
  refreshData ;;
  mret tt.

Definition checkHubData : M unit := checkHubData_in refreshData.

Definition getHubData : M (option HubData.t) :=
  checkHubData ;;
  o ← get_self;
  mret (wiserHubData o).

Definition getWiserHubName : M (option string) :=
  o ← get_self;
  match wiserNetworkData o with
  | None => raise AttributeError
  | Some network =>
      match NetworkData.Station network with
      | None => raise AttributeError
      | Some station => mret (Station.MdnsHostname station)
      end
  end.

Definition getMACAddress : M (option string) :=
  o ← get_self;
  match wiserNetworkData o with
  | None => raise AttributeError
  | Some network =>
      match NetworkData.Station network with
      | None => raise AttributeError
      | Some station => mret (Station.MacAddress station)
      end
  end.

Definition getRooms : M (option (list Room.t)) := getRooms_in refreshData.

Definition getRoom (roomId : Z) : M Room.t :=
  checkHubData ;;
  o ← get_self;
  rooms ← dict_get (wiserHubData o) HubData.Room;
  match rooms with
  | None => raise (WiserNoRoomsFound "No rooms found in Wiser payload")
  | Some rooms =>
      match find (λ room, bool_decide (Room.id room = Some roomId)) rooms with
      | Some room => mret room
      | None => raise (WiserNotFound "Room {} not found")
      end
  end.

Definition getHeatingChannels : M (option (list HeatingChannel.t)) :=
  checkHubData ;;
  o ← get_self;
  dict_get (wiserHubData o) HubData.HeatingChannel.

Definition getDevices : M (option (list Device.t)) :=
  checkHubData ;;
  o ← get_self;
  dict_get (wiserHubData o) HubData.Device.

Definition getDevice (deviceId : Z) : M Device.t :=
  checkHubData ;;
  o ← get_self;
  devices ← dict_get (wiserHubData o) HubData.Device;
  match devices with
  | None => raise (WiserNoRoomsFound "getRoom called but no rooms found")
  | Some devices =>
      match find (λ device, bool_decide (Device.id device = Some deviceId)) devices with
      | Some device => mret device
      | None => raise (WiserNotFound "Device {} not found ")
      end
  end.

Definition getDeviceRoom (deviceId : Z) : M RoomRef :=
  checkHubData ;;
  o ← get_self;
  (if decide (size (device2roomMap o) = 0%nat)
   then refreshData ;; mret tt
   else mret tt) ;;
  o ← get_self;
  match device2roomMap o !! deviceId with
  | Some ref => mret ref
  | None => raise KeyError
  end.

Definition getHeatingRelayStatus : M string :=
  let heatingRelayStatus := "Off" in
  heatingChannels ← getHeatingChannels;
  match heatingChannels with
  | None => raise TypeError
  | Some heatingChannels =>
      mret (fold_left
              (λ heatingRelayStatus heatingChannel,
                 if bool_decide
                      (HeatingChannel.HeatingRelayState heatingChannel = Some "On")
                 then "On"
                 else heatingRelayStatus)
              heatingChannels heatingRelayStatus)
  end.

Definition getRoomStatData (deviceId : Z) : M RoomStat.t :=
  checkHubData ;;
  o ← get_self;
  section ← dict_get (wiserHubData o) HubData.RoomStat;
  match section with
  | Missing => raise KeyError
  | Null => raise (WiserNotFound "deviceID {} not found ")
  | Value roomStats =>
      match find (λ roomStat, bool_decide (RoomStat.id roomStat = Some deviceId)) roomStats with
      | Some roomStat => mret roomStat
      | None => raise (WiserNotFound "getRoomStatData for deviceID {} not found due")
      end
  end.

(** The loop shared by [getSmartPlug], [getSmartPlugState] and
    [getSmartPlugMode]: the plug with the given id, if the section is there
    and holds one. *)
Definition scan_smart_plugs (smartPlugId : Z) : M (option SmartPlug.t) :=
  checkHubData ;;
  d ← getHubData;
  plugs ← dict_get d HubData.SmartPlug;
  if plugs is Some _
  then
    d ← getHubData;
    plugs ← dict_get d HubData.SmartPlug;
    match plugs with
    | Some plugs =>
        mret (find (λ plug, bool_decide (SmartPlug.id plug = Some smartPlugId)) plugs)
    | None => raise TypeError
    end
  else mret None.

Definition getSmartPlug (smartPlugId : Z) : M SmartPlug.t :=
  found ← scan_smart_plugs smartPlugId;
  match found with
  | Some plug => mret plug
  | None => raise (WiserNotFound "Unable to find smartPlug {}")
  end.

Definition getSmartPlugState (smartPlugId : Z) : M (option string) :=
  found ← scan_smart_plugs smartPlugId;
  match found with
  | Some plug => mret (SmartPlug.OutputState plug)
  | None => raise (WiserNotFound "Unable to find smartPlug {}")
  end.

Definition getSmartPlugMode (smartPlugId : Z) : M (option string) :=
  found ← scan_smart_plugs smartPlugId;
  match found with
  | Some plug => mret (SmartPlug.Mode plug)
  | None => raise (WiserNotFound "Unable to find smartPlug {}")
  end.

Definition setRoomTemperature (roomId : Z) (temperature : Q) : M unit :=
  if negb (__checkTempRange temperature)
  then raise (ValueError
    "SetRoomTemperature : value of temperature must be between {} and {} OR {} (off)")
  else
    let patchData :=
      JDict [("RequestOverride",
              JDict [("Type", JStr "Manual");
                     ("SetPoint", JInt (__toWiserTemp temperature))])] in
    o ← get_self;
    response ← requests_patch
                 (format WISERSETROOMTEMP [ArgStr (hubIP o); ArgInt roomId])
                 patchData;
    if negb (status_code response =? 200)
    then raise (WiserRESTException "Error setting temperature, error {} ")
    else mret tt.

Definition cancelBoostPostData : Json :=
  JDict [("RequestOverride",
          JDict [("Type", JStr "None");
                 ("DurationMinutes", JInt 0);
                 ("SetPoint", JInt 0);
                 ("Originator", JStr "App")])].

Definition setRoomMode (roomId : Z) (mode : string)
    (boost_temp : Q) (boost_temp_time : Z) : M unit :=
  patchData ←
    (if String.eqb (lower mode) "auto"
     then mret (JDict [("Mode", JStr "Auto")])
     else if String.eqb (lower mode) "boost"
     then
       if Qltb boost_temp TEMP_MINIMUM || Qltb TEMP_MAXIMUM boost_temp
       then raise (ValueError
         "Boost temperature is set to {}. Boost temperature can only be between {} and {}.")
       else
         mret (JDict [("RequestOverride",
                       JDict [("Type", JStr "Manual");
                              ("DurationMinutes", JInt boost_temp_time);
                              ("SetPoint", JInt (__toWiserTemp boost_temp));
                              ("Originator", JStr "App")])])
     else if String.eqb (lower mode) "manual"
     then
       room ← getRoom roomId;
       scheduled ← (match Room.ScheduledSetPoint room with
                    | Some v => mret v
                    | None => raise TypeError
                    end);
       let setTemp := __fromWiserTemp scheduled in
       let setTemp := if Qle_bool TEMP_MINIMUM setTemp then setTemp else TEMP_MINIMUM in
       mret (JDict [("Mode", JStr "Manual");
                    ("RequestOverride",
                     JDict [("Type", JStr "Manual");
                            ("SetPoint", JInt (__toWiserTemp setTemp))])])
     else if String.eqb (lower mode) "off"
     then
       mret (JDict [("Mode", JStr "Manual");
                    ("RequestOverride",
                     JDict [("Type", JStr "Manual");
                            ("SetPoint", JInt (__toWiserTemp TEMP_OFF))])])
     else raise (ValueError
       "Error setting setting room mode, received  {} but should be auto,boost,off or manual "));
  (if negb (String.eqb (lower mode) "boost")
   then
     o ← get_self;
     response ← requests_patch
                  (format WISERROOM [ArgStr (hubIP o); ArgInt roomId])
                  cancelBoostPostData;
     if negb (status_code response =? 200)
     then raise (WiserRESTException "Error cancelling boost {} ")
     else mret tt
   else mret tt) ;;
  o ← get_self;
  response ← requests_patch
               (format WISERROOM [ArgStr (hubIP o); ArgInt roomId])
               patchData;
  if negb (status_code response =? 200)
  then raise (WiserRESTException "Error setting mode to {}, error {} ")
  else mret tt.

End Facade.

(** ** The index as a function of the rooms *)

(** The device ids a room lists, in the order [refreshData] visits them. *)
Definition room_devices (room : Room.t) : list Z :=
  option_list (Room.RoomStatId room) ++ default [] (Room.SmartValveIds room).

Definition add_room (m : gmap Z RoomRef) (room : Room.t) : gmap Z RoomRef :=
  foldl (λ m k, <[k := room_ref room]> m) m (room_devices room).

Definition add_rooms (m : gmap Z RoomRef) (rooms : list Room.t) : gmap Z RoomRef :=
  foldl add_room m rooms.

(** The mapping derived from one document alone. *)
Definition derived_index (d : HubData.t) : gmap Z RoomRef :=
  add_rooms ∅ (default [] (HubData.Room d)).

Definition set_device2roomMap (m : gmap Z RoomRef) (o : wiserHub) : wiserHub :=
  {| wiserHubData := wiserHubData o;
     wiserNetworkData := wiserNetworkData o;
     WiserNetworkData := WiserNetworkData o;
     hubIP := hubIP o;
     hubSecret := hubSecret o;
     device2roomMap := m |}.

Definition hub_url (o : wiserHub) : Url := format WISERHUBURL [ArgStr (hubIP o)].

Definition network_url (o : wiserHub) : Url := format WISERNETWORKURL [ArgStr (hubIP o)].

Definition room_url (o : wiserHub) (roomId : Z) : Url :=
  format WISERROOM [ArgStr (hubIP o); ArgInt roomId].

(** The world after some more requests have been sent. *)
Definition after (requests : list Request) (w : World) : World :=
  {| self := self w; sent := sent w ++ requests |}.

(** The object after a refresh that fetched [d] and the network document
    [v]. *)
Definition refreshed (d : HubData.t) (v : option NetworkData.t) (o : wiserHub) : wiserHub :=
  {| wiserHubData := Some d;
     wiserNetworkData := wiserNetworkData o;
     WiserNetworkData := v;
     hubIP := hubIP o;
     hubSecret := hubSecret o;
     device2roomMap := add_rooms (device2roomMap o) (default [] (HubData.Room d)) |}.

(** [raise_for_status] lets the status through. *)
Definition status_ok (r : Response) : bool :=
  negb ((400 <=? status_code r) && (status_code r <? 600)).

(** [k] refreshes in a row. *)
Definition refreshes (env : Collaborators) (recursionlimit : nat) (k : nat) (w : World) : World :=
  Nat.iter k (λ w, snd (refreshData env recursionlimit w)) w.

(** The bodies [setRoomMode] sends for each mode. *)
Definition auto_patch : Json := JDict [("Mode", JStr "Auto")].

Definition boost_patch (boost_temp : Q) (boost_temp_time : Z) : Json :=
  JDict [("RequestOverride",
          JDict [("Type", JStr "Manual");
                 ("DurationMinutes", JInt boost_temp_time);
                 ("SetPoint", JInt (__toWiserTemp boost_temp));
                 ("Originator", JStr "App")])].

Definition manual_patch (setPoint : Z) : Json :=
  JDict [("Mode", JStr "Manual");
         ("RequestOverride",
          JDict [("Type", JStr "Manual"); ("SetPoint", JInt setPoint)])].

(** ** A hub to run the facade against *)

Module Example.

Definition hall : Room.t :=
  {| Room.id := Some 1; Room.Name := Some "Hall";
     Room.ScheduleId := Some 11; Room.ScheduledSetPoint := Some 30;
     Room.RoomStatId := Some 99; Room.SmartValveIds := Some [7; 8] |}.

Definition study : Room.t :=
  {| Room.id := Some 2; Room.Name := Some "Study";
     Room.ScheduleId := Some 12; Room.ScheduledSetPoint := Some 180;
     Room.RoomStatId := None; Room.SmartValveIds := Some [5] |}.

Definition channels : list HeatingChannel.t :=
  [ {| HeatingChannel.id := Some 1; HeatingChannel.HeatingRelayState := Some "Off" |};
    {| HeatingChannel.id := Some 2; HeatingChannel.HeatingRelayState := Some "On" |} ].

Definition document (rooms : list Room.t) : HubData.t :=
  {| HubData.Room := Some rooms;
     HubData.Device := Some [ {| Device.id := Some 99; Device.ProductType := Some "RoomStat" |} ];
     HubData.HeatingChannel := Some channels;
     HubData.SmartPlug := None;
     HubData.RoomStat := Value [ {| RoomStat.id := Some 99; RoomStat.SetPoint := Some 200 |} ] |}.

Definition network : NetworkData.t :=
  {| NetworkData.Station :=
       Some {| Station.MdnsHostname := Some "WiserHeat03C1B5";
               Station.MacAddress := Some "00:11:22:33:44:55" |} |}.

(** The parser knows four bodies of the state document. *)
Definition parse (r : Response) : option (option HubData.t) :=
  if String.eqb (content r) "hall" then Some (Some (document [hall]))
  else if String.eqb (content r) "study" then Some (Some (document [study]))
  else if String.eqb (content r) "empty" then Some (Some (document []))
  else if String.eqb (content r) "null" then Some None
  else None.

Definition loads (s : string) : option (option NetworkData.t) :=
  if String.eqb s "network" then Some (Some network) else None.

Definition ok (body : string) : Reply :=
  Responded {| status_code := 200; content := body |}.

Definition is_hub_get (r : Request) : bool :=
  match r with
  | GET url => String.eqb (template url) WISERHUBURL
  | PATCH _ _ => false
  end.

(** A hub that answers its [i]-th fetch of the state document with the
    [i]-th body and is unreachable for further ones; the network document
    comes with a byte that has to be stripped; every PATCH is accepted. *)
Definition serving (bodies : list string) : Collaborators :=
  {| respond := λ log,
       match last log with
       | Some (GET url) =>
           if String.eqb (template url) WISERHUBURL
           then
             match bodies !! (length (filter (λ r, is_hub_get r = true) log) - 1)%nat with
             | Some body => ok body
             | None => ConnectionFailed
             end
           else ok (String (ascii_of_N 1) "network")
       | Some (PATCH _ _) => ok ""
       | None => ConnectionFailed
       end;
     resp_json := parse;
     json_loads := loads |}.

(** A hub that rejects the secret. *)
Definition unauthorized : Collaborators :=
  {| respond := λ _, Responded {| status_code := 401; content := "" |};
     resp_json := parse;
     json_loads := loads |}.

Definition blank : World :=
  {| self := {| wiserHubData := None; wiserNetworkData := None;
                WiserNetworkData := None; hubIP := ""; hubSecret := "";
                device2roomMap := ∅ |};
     sent := [] |}.

(** The facade constructed against a hub. *)
Definition constructed (env : Collaborators) : World :=
  snd (__init__ env 0 "192.168.1.10" "secret" blank).

End Example.

(** ** Notions used in the statements *)

(** The world with another index. *)
Definition with_index (m : gmap Z RoomRef) (w : World) : World :=
  {| self := set_device2roomMap m (self w); sent := sent w |}.

(** A computation keeps [wiserNetworkData] when it never assigns that
    attribute, whatever else it does and however it ends. *)
Definition keeps {A} (m : M A) : Prop :=
  ∀ w, wiserNetworkData (self (snd (m w))) = wiserNetworkData (self w).

(** What [setRoomMode] does once [patchData] is built, when the mode is not
    boost: the cancellation goes first, and the mode's own PATCH follows only
    if the hub answered 200. *)
Definition cancel_then_patch (env : Collaborators) (roomId : Z) (patchData : Json) (w : World) : Outcome unit * World :=
  let cancel := PATCH (room_url (self w) roomId) cancelBoostPostData in
  let request := PATCH (room_url (self w) roomId) patchData in
  match respond env (sent w ++ [cancel]) with
  | TimedOut => (Raise requests_Timeout, after [cancel] w)
  | ConnectionFailed => (Raise requests_ConnectionError, after [cancel] w)
  | Responded r =>
      if status_code r =? 200
      then
        match respond env (sent w ++ [cancel; request]) with
        | TimedOut => (Raise requests_Timeout, after [cancel; request] w)
        | ConnectionFailed => (Raise requests_ConnectionError, after [cancel; request] w)
        | Responded r' =>
            if status_code r' =? 200
            then (Return tt, after [cancel; request] w)
            else (Raise (WiserRESTException "Error setting mode to {}, error {} "),
                  after [cancel; request] w)
        end
      else (Raise (WiserRESTException "Error cancelling boost {} "), after [cancel] w)
  end.

(** * The other commands and accessors *)

Definition WISERMODEURL : string := "http://{}/data/domain/System/RequestOverride".
Definition WISERSCHEDULEURL : string := "http://{}/data/domain/Schedule/{}".
Definition WISERSMARTPLUGURL : string := "http://{}/data/domain/SmartPlug/{}".

(** ** [str.title] on ASCII text *)

Definition is_cased (c : ascii) : bool :=
  let n := N_of_ascii c in
  (((65 <=? n) && (n <=? 90)) || ((97 <=? n) && (n <=? 122)))%N.

Definition upper_ascii (c : ascii) : ascii :=
  let n := N_of_ascii c in
  if ((97 <=? n) && (n <=? 122))%N then ascii_of_N (n - 32) else c.

(** A letter that follows a letter is lowered, a letter that starts a run of
    letters is raised, anything else is kept and ends the run. *)
Fixpoint title_from (previous_is_cased : bool) (s : string) : string :=
  match s with
  | EmptyString => EmptyString
  | String c rest =>
      if is_cased c
      then String (if previous_is_cased then lower_ascii c else upper_ascii c)
                  (title_from true rest)
      else String c (title_from false rest)
  end.

Definition title (s : string) : string := title_from false s.

(** [x in l] for a list of strings. *)
Definition string_in (x : string) (l : list string) : bool :=
  existsb (String.eqb x) l.

Section Commands.

Context (env : Collaborators).
Context (recursionlimit : nat).

Definition getSmartPlugs : M (option (list SmartPlug.t)) :=
  checkHubData env recursionlimit ;;
  d ← getHubData env recursionlimit;
  dict_get d HubData.SmartPlug.

(** [setSystemSwitch]: [mode] is whatever JSON value the caller passes. *)
Definition setSystemSwitch (switch : string) (mode : Json) : M unit :=
  let patchData := JDict [(switch, mode)] in
  let url := (WISERHUBURL ++ "System")%string in
  o ← get_self;
  response ← requests_patch env (format url [ArgStr (hubIP o)]) patchData;
  if negb (status_code response =? 200)
  then raise (WiserRESTException "Error setting {} , error {} {}")
  else mret tt.

Definition setRoomSchedule (roomId : Z) (scheduleData : Json) : M unit :=
  room ← getRoom env recursionlimit roomId;
  let scheduleId := Room.ScheduleId room in
  match scheduleId with
  | Some scheduleId =>
      let patchData := scheduleData in
      o ← get_self;
      response ← requests_patch env
                   (format WISERSCHEDULEURL [ArgStr (hubIP o); ArgInt scheduleId])
                   patchData;
      if negb (status_code response =? 200)
      then raise (WiserRESTException "Error setting schedule for room {} , error {} {}")
      else mret tt
  | None => raise (WiserNotFound "No schedule found that matches roomId")
  end.

(** [setHomeAwayMode]: [temperature] may be [None]. *)
Definition setHomeAwayMode (mode : string) (temperature : option Q) : M unit :=
  if negb (string_in mode ["HOME"; "AWAY"])
  then raise (ValueError "setAwayHome can only be HOME or AWAY")
  else
    (if String.eqb mode "AWAY"
     then
       match temperature with
       | None => raise (ValueError "setAwayHome set to AWAY but not temperature set")
       | Some t =>
           if negb (__checkTempRange t)
           then raise (ValueError
             "setAwayHome temperature can only be between {} and {} or {}(Off)")
           else mret tt
       end
     else mret tt) ;;
    patchData ←
      (if String.eqb mode "AWAY"
       then
         match temperature with
         | Some t => mret (JDict [("type", JInt 2); ("setPoint", JInt (__toWiserTemp t))])
         | None => raise TypeError
         end
       else mret (JDict [("type", JInt 0); ("setPoint", JInt 0)]));
    o ← get_self;
    response ← requests_patch env (format WISERMODEURL [ArgStr (hubIP o)]) patchData;
    if negb (status_code response =? 200)
    then raise (ValueError "Error setting Home/Away , error {} {}")
    else mret tt.

(** In the two smart plug setters the address is formatted a second time
    with the hub address alone; the formatted address holds no placeholder
    any more, so that the second call gives it back. *)
Definition setSmartPlugState (smartPlugId : Z) (smartPlugState : string) : M unit :=
  if negb (string_in (title smartPlugState) ["On"; "Off"])
  then raise (ValueError "SmartPlug State must be either On or Off")
  else
    o ← get_self;
    let url := format WISERSMARTPLUGURL [ArgStr (hubIP o); ArgInt smartPlugId] in
    let patchData := JDict [("RequestOutput", JStr (title smartPlugState))] in
    response ← requests_patch env url patchData;
    if negb (status_code response =? 200)
    then
      if status_code response =? 404
      then raise (WiserNotFound "Set smart plug {} not found error")
      else raise (WiserRESTException "Error setting smartplug mode, msg {} , error {}")
    else mret tt.

Definition setSmartPlugMode (smartPlugId : Z) (smartPlugMode : string) : M unit :=
  if negb (string_in (title smartPlugMode) ["Auto"; "Manual"])
  then raise (ValueError "SmartPlug Mode must be either Auto or Manual")
  else
    o ← get_self;
    let url := format WISERSMARTPLUGURL [ArgStr (hubIP o); ArgInt smartPlugId] in
    let patchData := JDict [("Mode", JStr (title smartPlugMode))] in
    response ← requests_patch env url patchData;
    if negb (status_code response =? 200)
    then
      if status_code response =? 404
      then raise (WiserNotFound "Set smart plug {} not found error")
      else raise (WiserRESTException "Error setting smartplug mode, msg {} , error {}")
    else mret tt.

End Commands.

(** ** More notions used in the statements *)

(** A computation respects a relation on the object when the object it
    leaves is related to the one it found, however it ends. *)
Definition respects (R : wiserHub → wiserHub → Prop) {A} (m : M A) : Prop :=
  ∀ w, R (self w) (self (snd (m w))).

(** Every key of the index of [o] is a key of the index of [o']. *)
Definition index_grows (o o' : wiserHub) : Prop :=
  ∀ k, is_Some (device2roomMap o !! k) → is_Some (device2roomMap o' !! k).

(** What a command does with its one PATCH. *)
Definition patch_once (env : Collaborators) (url : Url) (json : Json)
    (failure : Response → Exception) (w : World) : Outcome unit * World :=
  match respond env (sent w ++ [PATCH url json]) with
  | TimedOut => (Raise requests_Timeout, after [PATCH url json] w)
  | ConnectionFailed => (Raise requests_ConnectionError, after [PATCH url json] w)
  | Responded r =>
      if status_code r =? 200
      then (Return tt, after [PATCH url json] w)
      else (Raise (failure r), after [PATCH url json] w)
  end.

(** Every byte of the string is in the range that [re.sub] keeps. *)
Fixpoint all_printable (s : string) : bool :=
  match s with
  | EmptyString => true
  | String c rest =>
      ((32 <=? N_of_ascii c) && (N_of_ascii c <=? 127))%N && all_printable rest
  end.

(** The index may grow and the address stays. *)
Definition settled (o o' : wiserHub) : Prop :=
  index_grows o o' ∧ hubIP o' = hubIP o ∧ hubSecret o' = hubSecret o.


(** The error of the smart plug setters for an answer other than 200. *)
Definition smart_plug_failure (r : Response) : Exception :=
  if status_code r =? 404
  then WiserNotFound "Set smart plug {} not found error"
  else WiserRESTException "Error setting smartplug mode, msg {} , error {}".


(** The second world is the first one with some PATCH requests added to the
    log, the object being the same. *)
Definition only_patches (w w' : World) : Prop :=
  ∃ l, w' = after l w ∧ Forall (λ r, ∃ url json, r = PATCH url json) l.

Definition quiet {A} (m : M A) : Prop := ∀ w, only_patches w (snd (m w)).

(** ** Temperatures as the interpreter computes them *)

(** A Python number: an int of any size or a binary64 float. *)
Inductive number :=
| Int (z : Z)
| Float (f : PrimFloat.float).

Module Binary64.

(** The rational that a finite float stands for. *)
Definition value (f : PrimFloat.float) : option Q :=
  match FloatOps.Prim2SF f with
  | SpecFloat.S754_zero _ => Some 0%Q
  | SpecFloat.S754_finite s m e =>
      Some (inject_Z (if s then Z.neg m else Z.pos m) * Qpower 2 e)%Q
  | SpecFloat.S754_infinity _ => None
  | SpecFloat.S754_nan => None
  end.

(** [float(z)] for an int below 2^63 in magnitude. *)
Definition of_Z (z : Z) : PrimFloat.float :=
  if 0 <=? z
  then PrimFloat.of_uint63 (Uint63.of_Z z)
  else PrimFloat.opp (PrimFloat.of_uint63 (Uint63.of_Z (- z))).

(** [int(f)]: the value truncated toward zero; [None] when [int] raises,
    for an infinity or a NaN. *)
Definition int (f : PrimFloat.float) : option Z :=
  v ← value f; Some (int v).

(** [round(f, 1)] for a float below 2^49 in magnitude: the decimal with
    one place nearest to the value of [f], ties to even, and then the float
    nearest to that decimal.  Ten times that decimal is an int below 2^53 and
    so a float as it stands; a zero keeps the sign of [f]. *)
Definition round1 (f : PrimFloat.float) : PrimFloat.float :=
  match value f with
  | Some v =>
      let n := round (v * 10) in
      if n =? 0 then PrimFloat.mul f PrimFloat.zero
      else PrimFloat.div (of_Z n) (of_Z 10)
  | None => f
  end.

(** [int(temp * 10)]: the product of an int by 10 is an int, which [int]
    leaves as it is; the product of a float by 10 is a float. *)
Definition __toWiserTemp (temp : number) : option Z :=
  match temp with
  | Int z => Some (z * 10)
  | Float f => int (PrimFloat.mul f (of_Z 10))
  end.

(** [temp] is an int read from the document.  Below 2^53 in magnitude it
    is a float as it stands, and [temp / 10] is the float nearest to the
    quotient. *)
Definition __fromWiserTemp (temp : Z) : PrimFloat.float :=
  round1 (PrimFloat.div (of_Z temp) (of_Z 10)).

End Binary64.

#[export] Instance spec_float_eq_dec : EqDecision SpecFloat.spec_float.
Proof. solve_decision. Defined.

(** The hub values from -1000 up to 2000, which hold every set-point the hub
    deals in. *)
Definition hub_values : list Z := map (λ i, Z.of_nat i - 1000) (seq 0 3000).

(** Rounding to one place leaves the quotient where it is, within 2^-46 of
    the tenth of the hub value. *)
Definition decodes_to_quotient (t : Z) : bool :=
  bool_decide
    (FloatOps.Prim2SF (Binary64.__fromWiserTemp t) =
     FloatOps.Prim2SF (PrimFloat.div (Binary64.of_Z t) (Binary64.of_Z 10)))
  && match Binary64.value (Binary64.__fromWiserTemp t) with
     | Some v => Qle_bool (Qabs (v - inject_Z t / 10)) (1 # 2 ^ 46)
     | None => false
     end.

Definition round_trips (t : Z) : bool :=
  match Binary64.__toWiserTemp (Float (Binary64.__fromWiserTemp t)) with
  | Some n => n =? t
  | None => false
  end.

(** * Proofs *)

Ltac unfold_monad :=
  cbv beta iota zeta delta
    [mbind M_bind mret M_ret raise get_self modify_self dict_get try_except
     requests_get requests_patch Response_json getattr_status_code].

Ltac unfold_bind :=
  cbv beta iota zeta delta [mbind M_bind mret M_ret raise].

(** ** Temperatures *)

Lemma int_nonneg (x : Q) : (0 <= x)%Q → int x = Qfloor x.
Proof.
  destruct x as [n d]. unfold Qle, int, Qfloor. simpl. intros H.
  apply Z.quot_div_nonneg; lia.
Qed.

Lemma int_nonpos (x : Q) : (x <= 0)%Q → int x = Qceiling x.
Proof.
  destruct x as [n d]. unfold Qle, int, Qceiling, Qfloor. simpl. intros H.
  rewrite <- (Z.opp_involutive n) at 1.
  rewrite Z.quot_opp_l by lia.
  f_equal. apply Z.quot_div_nonneg; lia.
Qed.

Lemma int_integral (x : Q) (k : Z) : (x == inject_Z k)%Q → int x = k.
Proof.
  intros H. destruct (Qlt_le_dec x 0) as [Hneg | Hpos].
  - rewrite int_nonpos by (apply Qlt_le_weak; exact Hneg).
    rewrite (Qceiling_comp _ _ H). apply Qceiling_Z.
  - rewrite int_nonneg by exact Hpos.
    rewrite (Qfloor_comp _ _ H). apply Qfloor_Z.
Qed.

Lemma round_integral (x : Q) (k : Z) : (x == inject_Z k)%Q → round x = k.
Proof.
  intros H. unfold round. rewrite (Qfloor_comp _ _ H), Qfloor_Z.
  assert (E : (x - inject_Z k == 0)%Q) by (rewrite H; ring).
  rewrite (Qcompare_comp _ _ E _ _ (Qeq_refl (1 # 2))). reflexivity.
Qed.

Lemma fromWiserTemp_exact (t : Z) : __fromWiserTemp t = (inject_Z t / 10)%Q.
Proof.
  unfold __fromWiserTemp, round1. rewrite (round_integral _ t); [reflexivity |].
  field.
Qed.

Lemma toWiserTemp_fromWiserTemp (t : Z) : __toWiserTemp (__fromWiserTemp t) = t.
Proof.
  rewrite fromWiserTemp_exact. unfold __toWiserTemp. apply int_integral. field.
Qed.

Lemma Qltb_lt (a b : Q) : Qltb a b = true ↔ (a < b)%Q.
Proof.
  unfold Qltb. rewrite negb_true_iff. split.
  - intros H. apply Qnot_le_lt. intros Hle.
    apply Qle_bool_iff in Hle. congruence.
  - intros H. destruct (Qle_bool b a) eqn:E; [| reflexivity].
    apply Qle_bool_iff in E. exfalso. exact (Qlt_not_le _ _ H E).
Qed.

Lemma checkTempRange_spec (temp : Q) :
  __checkTempRange temp = true ↔
  (temp == TEMP_OFF ∨ (TEMP_MINIMUM <= temp ∧ temp <= TEMP_MAXIMUM))%Q.
Proof.
  unfold __checkTempRange.
  destruct (Qeq_bool temp TEMP_OFF) eqn:Eoff; simpl.
  - apply Qeq_bool_iff in Eoff. tauto.
  - assert (Hoff : ¬ (temp == TEMP_OFF)%Q).
    { intros H. apply Qeq_bool_iff in H. congruence. }
    destruct (Qltb temp TEMP_MINIMUM) eqn:Emin; simpl.
    + apply Qltb_lt in Emin. split; [discriminate |].
      intros [H | [H _]]; [tauto |]. exfalso. exact (Qlt_not_le _ _ Emin H).
    + assert (Hmin : (TEMP_MINIMUM <= temp)%Q).
      { apply Qnot_lt_le. intros H. apply Qltb_lt in H. congruence. }
      destruct (Qltb TEMP_MAXIMUM temp) eqn:Emax.
      * apply Qltb_lt in Emax. split; [discriminate |].
        intros [H | [_ H]]; [tauto |]. exfalso. exact (Qlt_not_le _ _ Emax H).
      * split; [| reflexivity]. intros _. right. split; [exact Hmin |].
        apply Qnot_lt_le. intros H. apply Qltb_lt in H. congruence.
Qed.

Lemma clamp_scheduled (scheduled : Z) :
  __toWiserTemp
    (if Qle_bool TEMP_MINIMUM (__fromWiserTemp scheduled)
     then __fromWiserTemp scheduled else TEMP_MINIMUM) = Z.max scheduled 50.
Proof.
  destruct (Qle_bool TEMP_MINIMUM (__fromWiserTemp scheduled)) eqn:E.
  - rewrite toWiserTemp_fromWiserTemp.
    rewrite fromWiserTemp_exact in E. unfold Qle_bool in E. simpl in E.
    apply Z.leb_le in E. lia.
  - assert (H : ¬ (50 <= scheduled)).
    { intros H. rewrite fromWiserTemp_exact in E. unfold Qle_bool in E. simpl in E.
      apply Z.leb_gt in E. lia. }
    rewrite Z.max_r by lia. reflexivity.
Qed.

(** ** Loops *)

Lemma find_no_match {A} (f : A → bool) (l : list A) :
  (∀ x, x ∈ l → f x = false) → find f l = None.
Proof.
  induction l as [| a l IH]; intros H; simpl; [reflexivity |].
  rewrite (H a) by apply list_elem_of_here.
  apply IH. intros x Hx. apply H. apply list_elem_of_further. exact Hx.
Qed.

Lemma relay_fold (channels : list HeatingChannel.t) (status : string) :
  fold_left
    (λ heatingRelayStatus heatingChannel,
       if bool_decide (HeatingChannel.HeatingRelayState heatingChannel = Some "On")
       then "On" else heatingRelayStatus)
    channels status =
  if existsb (λ ch, bool_decide (HeatingChannel.HeatingRelayState ch = Some "On")) channels
  then "On" else status.
Proof.
  revert status. induction channels as [| ch channels IH]; intros status; simpl.
  - reflexivity.
  - rewrite IH. destruct (bool_decide _); simpl; [| reflexivity].
    destruct (existsb _ channels); reflexivity.
Qed.

Lemma set_device2roomMap_id (o : wiserHub) : set_device2roomMap (device2roomMap o) o = o.
Proof. destruct o; reflexivity. Qed.

Lemma for_each_valves (ref : RoomRef) (valves : list Z) (w : World) :
  for_each valves (λ valveId, modify_self (setitem_device2roomMap valveId ref)) w =
  (Return tt,
   with_index (foldl (λ m k, <[k := ref]> m) (device2roomMap (self w)) valves) w).
Proof.
  revert w. induction valves as [| k valves IH]; intros w.
  - unfold with_index. simpl. rewrite set_device2roomMap_id. destruct w; reflexivity.
  - simpl. unfold_monad. rewrite IH. reflexivity.
Qed.

Lemma index_room_run (room : Room.t) (w : World) :
  index_room room w =
  (Return tt, with_index (add_room (device2roomMap (self w)) room) w).
Proof.
  unfold index_room, add_room, room_devices.
  destruct (Room.RoomStatId room) as [k |], (Room.SmartValveIds room) as [valves |];
    unfold_bind; simpl; try rewrite for_each_valves; try reflexivity.
  unfold with_index. simpl. rewrite set_device2roomMap_id. destruct w; reflexivity.
Qed.

Lemma for_each_rooms (rooms : list Room.t) (w : World) :
  for_each rooms index_room w =
  (Return tt, with_index (add_rooms (device2roomMap (self w)) rooms) w).
Proof.
  revert w. induction rooms as [| room rooms IH]; intros w.
  - unfold with_index. simpl. rewrite set_device2roomMap_id. destruct w; reflexivity.
  - simpl. unfold_monad. rewrite index_room_run, IH. reflexivity.
Qed.

(** ** The index as a map *)

Lemma foldl_insert_lookup (ref : RoomRef) (keys : list Z) (m : gmap Z RoomRef) (k : Z) :
  foldl (λ m k, <[k := ref]> m) m keys !! k =
  if decide (k ∈ keys) then Some ref else m !! k.
Proof.
  revert m. induction keys as [| k' keys IH]; intros m; cbn [foldl].
  - rewrite decide_False by apply not_elem_of_nil. reflexivity.
  - rewrite IH. destruct (decide (k ∈ keys)) as [Hin | Hnin].
    + rewrite decide_True by (apply list_elem_of_further; exact Hin). reflexivity.
    + destruct (decide (k = k')) as [-> | Hne].
      * rewrite decide_True by apply list_elem_of_here. apply lookup_insert_eq.
      * rewrite decide_False.
        -- apply lookup_insert_ne. congruence.
        -- intros H. apply elem_of_cons in H. tauto.
Qed.

Lemma add_room_lookup (m : gmap Z RoomRef) (room : Room.t) (k : Z) :
  add_room m room !! k =
  if decide (k ∈ room_devices room) then Some (room_ref room) else m !! k.
Proof. apply foldl_insert_lookup. Qed.

Lemma add_room_union (m : gmap Z RoomRef) (room : Room.t) :
  add_room m room = add_room ∅ room ∪ m.
Proof.
  apply map_eq. intros k. rewrite lookup_union, !add_room_lookup.
  case_decide; simpl.
  - destruct (m !! k); reflexivity.
  - rewrite lookup_empty. destruct (m !! k); reflexivity.
Qed.

Lemma add_rooms_union (m : gmap Z RoomRef) (rooms : list Room.t) :
  add_rooms m rooms = add_rooms ∅ rooms ∪ m.
Proof.
  revert m. induction rooms as [| room rooms IH]; intros m; simpl.
  - unfold add_rooms. simpl. rewrite (left_id_L ∅ (∪)). reflexivity.
  - unfold add_rooms in *. simpl.
    rewrite (IH (add_room m room)), (IH (add_room ∅ room)).
    rewrite (add_room_union m room). apply (assoc_L (∪)).
Qed.

Lemma add_rooms_lookup_Some (rooms : list Room.t) (m : gmap Z RoomRef) (k : Z) (ref : RoomRef) :
  add_rooms m rooms !! k = Some ref →
  m !! k = Some ref ∨ ∃ room, room ∈ rooms ∧ k ∈ room_devices room ∧ ref = room_ref room.
Proof.
  revert m. induction rooms as [| room rooms IH]; intros m H.
  - left. exact H.
  - unfold add_rooms in H. simpl in H. apply IH in H.
    destruct H as [H | (room' & Hin & Hk & ->)].
    + rewrite add_room_lookup in H. destruct (decide (k ∈ room_devices room)) as [Hk | Hk].
      * right. exists room. split; [apply list_elem_of_here |].
        split; [exact Hk | congruence].
      * left. exact H.
    + right. exists room'. split; [apply list_elem_of_further; exact Hin | done].
Qed.

Lemma add_rooms_lookup_listed (rooms : list Room.t) (m : gmap Z RoomRef) (k : Z) (room : Room.t) :
  room ∈ rooms → k ∈ room_devices room → is_Some (add_rooms m rooms !! k).
Proof.
  revert m. induction rooms as [| room' rooms IH]; intros m Hin Hk.
  - apply not_elem_of_nil in Hin. destruct Hin.
  - unfold add_rooms. simpl. apply elem_of_cons in Hin as [-> | Hin].
    + fold (add_rooms (add_room m room') rooms). rewrite add_rooms_union.
      rewrite lookup_union.
      assert (Hr : add_room m room' !! k = Some (room_ref room')).
      { rewrite add_room_lookup. rewrite decide_True by exact Hk. reflexivity. }
      rewrite Hr. destruct (add_rooms ∅ rooms !! k); simpl; eauto.
    + apply (IH _ Hin Hk).
Qed.

Lemma derived_index_keys (d : HubData.t) (k : Z) :
  is_Some (derived_index d !! k) ↔
  ∃ room, room ∈ default [] (HubData.Room d) ∧ k ∈ room_devices room.
Proof.
  unfold derived_index. split.
  - intros [ref H]. apply add_rooms_lookup_Some in H.
    destruct H as [H | (room & Hin & Hk & _)].
    + rewrite lookup_empty in H. discriminate.
    + exists room. done.
  - intros (room & Hin & Hk). exact (add_rooms_lookup_listed _ _ _ _ Hin Hk).
Qed.

(** ** What [refreshData] never assigns *)

Lemma keeps_ret {A} (a : A) : keeps (mret a).
Proof. intros w. reflexivity. Qed.

Lemma keeps_raise {A} (e : Exception) : keeps (raise e : M A).
Proof. intros w. reflexivity. Qed.

Lemma keeps_bind {A B} (m : M A) (f : A → M B) :
  keeps m → (∀ a, keeps (f a)) → keeps (m ≫= f).
Proof.
  intros Hm Hf w. unfold mbind, M_bind. specialize (Hm w).
  destruct (m w) as [[e | a] w']; simpl in *; [exact Hm |].
  rewrite Hf. exact Hm.
Qed.

Lemma keeps_try_except {A} (body : M A) (handler : Exception → option (M A)) :
  keeps body → (∀ e h, handler e = Some h → keeps h) → keeps (try_except body handler).
Proof.
  intros Hb Hh w. unfold try_except. specialize (Hb w).
  destruct (body w) as [[e | a] w']; simpl in *; [| exact Hb].
  destruct (handler e) as [h |] eqn:E; simpl; [| exact Hb].
  rewrite (Hh e h E). exact Hb.
Qed.

Lemma keeps_for_each {A} (l : list A) (body : A → M unit) :
  (∀ a, keeps (body a)) → keeps (for_each l body).
Proof.
  intros Hb. induction l as [| a l IH]; simpl.
  - apply keeps_ret.
  - apply keeps_bind; [apply Hb | intros _; exact IH].
Qed.

Lemma keeps_get_self : keeps get_self.
Proof. intros w. reflexivity. Qed.

Lemma keeps_modify_self (f : wiserHub → wiserHub) :
  (∀ o, wiserNetworkData (f o) = wiserNetworkData o) → keeps (modify_self f).
Proof. intros Hf w. simpl. apply Hf. Qed.

Section Keeps.
Context (env : Collaborators).

Lemma keeps_requests_get (url : Url) : keeps (requests_get env url).
Proof. intros w. unfold requests_get. destruct (respond env _); reflexivity. Qed.

Lemma keeps_requests_patch (url : Url) (json : Json) : keeps (requests_patch env url json).
Proof. intros w. unfold requests_patch. destruct (respond env _); reflexivity. Qed.

Lemma keeps_dict_get {A} (d : option HubData.t) (k : HubData.t → A) : keeps (dict_get d k).
Proof. destruct d; [apply keeps_ret | apply keeps_raise]. Qed.

Ltac keeps_step :=
  first
    [ apply keeps_ret
    | apply keeps_raise
    | apply keeps_get_self
    | apply keeps_requests_get
    | apply keeps_dict_get
    | apply keeps_modify_self; intros; reflexivity
    | apply keeps_for_each; intros
    | apply keeps_bind; [| intros] ].

Lemma keeps_checkHubData_in (refresh : M (option HubData.t)) :
  keeps refresh → keeps (checkHubData_in refresh).
Proof.
  intros H. unfold checkHubData_in.
  apply keeps_bind; [apply keeps_get_self | intros o].
  apply keeps_bind.
  - destruct (wiserHubData o); [apply keeps_ret |].
    apply keeps_bind; [exact H | intros; apply keeps_ret].
  - intros _. apply keeps_bind; [apply keeps_get_self | intros o'].
    destruct (wiserHubData o'); [apply keeps_ret | apply keeps_raise].
Qed.

Lemma keeps_getRooms_in (refresh : M (option HubData.t)) :
  keeps refresh → keeps (getRooms_in refresh).
Proof.
  intros H. unfold getRooms_in.
  apply keeps_bind; [apply keeps_checkHubData_in; exact H | intros _].
  repeat keeps_step.
Qed.

Lemma keeps_index_room (room : Room.t) : keeps (index_room room).
Proof.
  unfold index_room. apply keeps_bind.
  - destruct (Room.RoomStatId room); repeat keeps_step.
  - intros _. destruct (Room.SmartValveIds room); repeat keeps_step.
Qed.

Lemma keeps_refreshData_body (refresh : M (option HubData.t)) :
  keeps refresh → keeps (refreshData_body env refresh).
Proof.
  intros H. unfold refreshData_body.
  apply keeps_bind; [| intros _; repeat keeps_step].
  apply keeps_try_except.
  - apply keeps_bind; [apply keeps_get_self | intros o].
    apply keeps_bind; [apply keeps_requests_get | intros resp].
    apply keeps_bind.
    { unfold raise_for_status. destruct (_ && _); keeps_step. }
    intros _. apply keeps_bind.
    { unfold Response_json. destruct (resp_json env resp); keeps_step. }
    intros data. apply keeps_bind; [keeps_step | intros _].
    apply keeps_bind; [apply keeps_getRooms_in; exact H | intros rooms].
    apply keeps_bind.
    { destruct rooms; [| keeps_step].
      apply keeps_bind; [apply keeps_getRooms_in; exact H | intros rooms'].
      destruct rooms'; [| keeps_step].
      apply keeps_for_each. intros room. apply keeps_index_room. }
    intros _. apply keeps_bind; [apply keeps_get_self | intros o'].
    apply keeps_bind; [apply keeps_requests_get | intros resp'].
    destruct (json_loads env _); keeps_step.
  - intros e h He. destruct e; inversion He; subst; clear He.
    + keeps_step.
    + apply keeps_bind; [apply keeps_get_self | intros o].
      apply keeps_bind; [unfold getattr_status_code; keeps_step | intros status].
      destruct (status =? 401); [keeps_step |].
      destruct (status =? 404); keeps_step.
    + keeps_step.
Qed.

Lemma keeps_refreshData_depth (depth : nat) : keeps (refreshData_depth env depth).
Proof.
  induction depth as [| depth IH]; simpl; apply keeps_refreshData_body.
  - apply keeps_raise.
  - exact IH.
Qed.

End Keeps.

(** ** The paths through [refreshData] *)

Section Refresh.
Context (env : Collaborators).

Lemma checkHubData_in_cached (refresh : M (option HubData.t)) (w : World) (d : HubData.t) :
  wiserHubData (self w) = Some d → checkHubData_in refresh w = (Return tt, w).
Proof.
  intros H. unfold checkHubData_in. unfold_monad. repeat (rewrite H; unfold_monad). reflexivity.
Qed.

Lemma getRooms_in_cached (refresh : M (option HubData.t)) (w : World) (d : HubData.t) :
  wiserHubData (self w) = Some d → getRooms_in refresh w = (Return (HubData.Room d), w).
Proof.
  intros H. unfold getRooms_in. unfold_bind.
  rewrite (checkHubData_in_cached _ _ _ H). unfold_monad. rewrite H. reflexivity.
Qed.

Lemma refreshData_body_connection_failed (reenter : M (option HubData.t)) (w : World) :
  respond env (sent w ++ [GET (hub_url (self w))]) = ConnectionFailed →
  refreshData_body env reenter w =
    (Return (wiserHubData (self w)), after [GET (hub_url (self w))] w).
Proof.
  intros H. unfold refreshData_body, hub_url in *. unfold_monad. rewrite H. reflexivity.
Qed.

Lemma refreshData_body_timed_out (reenter : M (option HubData.t)) (w : World) :
  respond env (sent w ++ [GET (hub_url (self w))]) = TimedOut →
  refreshData_body env reenter w =
    (Raise (WiserHubTimeoutException "The connection timed out."),
     after [GET (hub_url (self w))] w).
Proof.
  intros H. unfold refreshData_body, hub_url in *. unfold_monad. rewrite H. reflexivity.
Qed.

Lemma refreshData_body_http_error (reenter : M (option HubData.t)) (w : World) (r : Response) :
  respond env (sent w ++ [GET (hub_url (self w))]) = Responded r →
  status_ok r = false →
  refreshData_body env reenter w =
    (Raise AttributeError, after [GET (hub_url (self w))] w).
Proof.
  intros H Hst. unfold status_ok in Hst. apply negb_false_iff in Hst.
  unfold refreshData_body, hub_url, raise_for_status in *. unfold_monad.
  rewrite H. unfold_monad. rewrite Hst. reflexivity.
Qed.

Lemma refreshData_body_fetched (reenter : M (option HubData.t)) (w : World)
    (r1 : Response) (d : HubData.t) :
  respond env (sent w ++ [GET (hub_url (self w))]) = Responded r1 →
  status_ok r1 = true →
  resp_json env r1 = Some (Some d) →
  refreshData_body env reenter w =
    let w1 := {| self := set_device2roomMap
                           (add_rooms (device2roomMap (self w)) (default [] (HubData.Room d)))
                           (set_wiserHubData (Some d) (self w));
                 sent := sent w ++ [GET (hub_url (self w))] |} in
    match respond env (sent w ++ [GET (hub_url (self w)); GET (network_url (self w))]) with
    | TimedOut =>
        (Raise (WiserHubTimeoutException "The connection timed out."),
         after [GET (network_url (self w))] w1)
    | ConnectionFailed => (Return (Some d), after [GET (network_url (self w))] w1)
    | Responded r2 =>
        match json_loads env (strip_non_printable (content r2)) with
        | None => (Raise JSONDecodeError, after [GET (network_url (self w))] w1)
        | Some v =>
            (Return (Some d),
             {| self := refreshed d v (self w);
                sent := sent w ++ [GET (hub_url (self w)); GET (network_url (self w))] |})
        end
    end.
Proof.
  intros H Hst Hjson. unfold status_ok in Hst. apply negb_true_iff in Hst.
  change [GET (hub_url (self w)); GET (network_url (self w))]
    with ([GET (hub_url (self w))] ++ [GET (network_url (self w))]).
  rewrite app_assoc.
  unfold refreshData_body, raise_for_status.
  cbv beta iota zeta delta
    [mbind M_bind mret M_ret raise get_self modify_self try_except
     requests_get Response_json].
  fold (hub_url (self w)).
  rewrite H. cbv beta iota. rewrite Hst. cbv beta iota. rewrite Hjson. cbv beta iota.
  set (w0 := {| self := set_wiserHubData (Some d) (self w);
                sent := sent w ++ [GET (hub_url (self w))] |}).
  cbn [self sent]. fold w0.
  rewrite (getRooms_in_cached reenter w0 d eq_refl).
  destruct (HubData.Room d) as [rooms |] eqn:Hrooms.
  - rewrite (getRooms_in_cached reenter w0 d eq_refl). rewrite Hrooms.
    rewrite for_each_rooms. cbn [self sent with_index w0 hubIP set_device2roomMap set_wiserHubData].
    fold (network_url (self w)).
    destruct (respond env ((sent w ++ [GET (hub_url (self w))])
                             ++ [GET (network_url (self w))])) as [| | r2];
      try reflexivity.
    destruct (json_loads env (strip_non_printable (content r2))); [| reflexivity].
    unfold refreshed. rewrite Hrooms. reflexivity.
  - cbn [self sent with_index w0 hubIP set_device2roomMap set_wiserHubData].
    fold (network_url (self w)).
    destruct (respond env ((sent w ++ [GET (hub_url (self w))])
                             ++ [GET (network_url (self w))])) as [| | r2];
      try reflexivity.
    destruct (json_loads env (strip_non_printable (content r2))); [| reflexivity].
    unfold refreshed. rewrite Hrooms. reflexivity.
Qed.
End Refresh.

(** ** Accessors on a cached document *)

Section Accessors.
Context (env : Collaborators) (recursionlimit : nat).

Lemma refreshData_unfold :
  refreshData env recursionlimit =
  refreshData_body env
    (match recursionlimit with
     | O => raise RecursionError
     | S d => refreshData_depth env d
     end).
Proof. unfold refreshData. destruct recursionlimit; reflexivity. Qed.

Lemma checkHubData_cached (w : World) (d : HubData.t) :
  wiserHubData (self w) = Some d → checkHubData env recursionlimit w = (Return tt, w).
Proof. apply checkHubData_in_cached. Qed.

Lemma getHubData_cached (w : World) (d : HubData.t) :
  wiserHubData (self w) = Some d →
  getHubData env recursionlimit w = (Return (Some d), w).
Proof.
  intros H. unfold getHubData. unfold_bind.
  rewrite (checkHubData_cached _ _ H). unfold_monad. rewrite H. reflexivity.
Qed.

(** [checkHubData] when nothing is cached and the hub cannot be reached. *)
Lemma checkHubData_unreachable (w : World) :
  wiserHubData (self w) = None →
  respond env (sent w ++ [GET (hub_url (self w))]) = ConnectionFailed →
  checkHubData env recursionlimit w =
    (Raise (WiserHubDataNull "Hub data null even after refresh, aborting request"),
     after [GET (hub_url (self w))] w).
Proof.
  intros Hnone Hfail. unfold checkHubData, checkHubData_in.
  cbv beta iota zeta delta [mbind M_bind mret M_ret raise get_self].
  rewrite Hnone. rewrite refreshData_unfold.
  rewrite (refreshData_body_connection_failed _ _ _ Hfail).
  cbn [after self]. rewrite Hnone. reflexivity.
Qed.

Lemma getRoom_cached (roomId : Z) (w : World) (d : HubData.t) :
  wiserHubData (self w) = Some d →
  getRoom env recursionlimit roomId w =
    match HubData.Room d with
    | None => (Raise (WiserNoRoomsFound "No rooms found in Wiser payload"), w)
    | Some rooms =>
        match find (λ room, bool_decide (Room.id room = Some roomId)) rooms with
        | Some room => (Return room, w)
        | None => (Raise (WiserNotFound "Room {} not found"), w)
        end
    end.
Proof.
  intros H. unfold getRoom. unfold_bind.
  rewrite (checkHubData_cached _ _ H).
  unfold_monad. rewrite H.
  destruct (HubData.Room d) as [rooms |]; [| reflexivity].
  destruct (find _ rooms); reflexivity.
Qed.

Lemma getDevice_cached (deviceId : Z) (w : World) (d : HubData.t) :
  wiserHubData (self w) = Some d →
  getDevice env recursionlimit deviceId w =
    match HubData.Device d with
    | None => (Raise (WiserNoRoomsFound "getRoom called but no rooms found"), w)
    | Some devices =>
        match find (λ device, bool_decide (Device.id device = Some deviceId)) devices with
        | Some device => (Return device, w)
        | None => (Raise (WiserNotFound "Device {} not found "), w)
        end
    end.
Proof.
  intros H. unfold getDevice. unfold_bind.
  rewrite (checkHubData_cached _ _ H).
  unfold_monad. rewrite H.
  destruct (HubData.Device d) as [devices |]; [| reflexivity].
  destruct (find _ devices); reflexivity.
Qed.

Lemma getRoomStatData_cached (deviceId : Z) (w : World) (d : HubData.t) :
  wiserHubData (self w) = Some d →
  getRoomStatData env recursionlimit deviceId w =
    match HubData.RoomStat d with
    | Missing => (Raise KeyError, w)
    | Null => (Raise (WiserNotFound "deviceID {} not found "), w)
    | Value roomStats =>
        match find (λ roomStat, bool_decide (RoomStat.id roomStat = Some deviceId)) roomStats with
        | Some roomStat => (Return roomStat, w)
        | None => (Raise (WiserNotFound "getRoomStatData for deviceID {} not found due"), w)
        end
    end.
Proof.
  intros H. unfold getRoomStatData. unfold_bind.
  rewrite (checkHubData_cached _ _ H).
  unfold_monad. rewrite H.
  destruct (HubData.RoomStat d) as [| | roomStats]; [reflexivity | reflexivity |].
  destruct (find _ roomStats); reflexivity.
Qed.

Lemma scan_smart_plugs_cached (smartPlugId : Z) (w : World) (d : HubData.t) :
  wiserHubData (self w) = Some d →
  scan_smart_plugs env recursionlimit smartPlugId w =
    (Return
       (plugs ← HubData.SmartPlug d;
        find (λ plug, bool_decide (SmartPlug.id plug = Some smartPlugId)) plugs),
     w).
Proof.
  intros H. unfold scan_smart_plugs. unfold_bind.
  rewrite (checkHubData_cached _ _ H), (getHubData_cached _ _ H).
  unfold_monad.
  destruct (HubData.SmartPlug d) as [plugs |] eqn:E; [| reflexivity].
  rewrite (getHubData_cached _ _ H). rewrite E. reflexivity.
Qed.

Lemma getHeatingChannels_cached (w : World) (d : HubData.t) :
  wiserHubData (self w) = Some d →
  getHeatingChannels env recursionlimit w = (Return (HubData.HeatingChannel d), w).
Proof.
  intros H. unfold getHeatingChannels. unfold_bind.
  rewrite (checkHubData_cached _ _ H). unfold_monad. rewrite H. reflexivity.
Qed.

End Accessors.

(** ** The modes of [setRoomMode] *)

Section SetRoomMode.
Context (env : Collaborators) (recursionlimit : nat).

Lemma setRoomMode_boost (roomId : Z) (mode : string) (boost_temp : Q) (boost_temp_time : Z)
    (w : World) :
  lower mode = "boost" →
  setRoomMode env recursionlimit roomId mode boost_temp boost_temp_time w =
    if Qltb boost_temp TEMP_MINIMUM || Qltb TEMP_MAXIMUM boost_temp
    then (Raise (ValueError
            "Boost temperature is set to {}. Boost temperature can only be between {} and {}."),
          w)
    else
      let request := PATCH (room_url (self w) roomId) (boost_patch boost_temp boost_temp_time) in
      match respond env (sent w ++ [request]) with
      | TimedOut => (Raise requests_Timeout, after [request] w)
      | ConnectionFailed => (Raise requests_ConnectionError, after [request] w)
      | Responded r =>
          if status_code r =? 200
          then (Return tt, after [request] w)
          else (Raise (WiserRESTException "Error setting mode to {}, error {} "),
                after [request] w)
      end.
Proof.
  intros Hm. unfold setRoomMode. rewrite Hm.
  change (String.eqb "boost" "auto") with false.
  change (String.eqb "boost" "boost") with true.
  cbv beta iota zeta delta [negb].
  destruct (Qltb boost_temp TEMP_MINIMUM || Qltb TEMP_MAXIMUM boost_temp); [reflexivity |].
  unfold_monad. fold (room_url (self w) roomId). fold (boost_patch boost_temp boost_temp_time).
  destruct (respond env _) as [| | r]; try reflexivity.
  destruct (status_code r =? 200); reflexivity.
Qed.


Lemma cancel_then_patch_run (roomId : Z) (patchData : Json) (w : World) :
  ((o ← get_self;
    response ← requests_patch env
                 (format WISERROOM [ArgStr (hubIP o); ArgInt roomId])
                 cancelBoostPostData;
    if negb (status_code response =? 200)
    then raise (WiserRESTException "Error cancelling boost {} ")
    else mret tt) ;;
   o ← get_self;
   response ← requests_patch env
                (format WISERROOM [ArgStr (hubIP o); ArgInt roomId])
                patchData;
   if negb (status_code response =? 200)
   then raise (WiserRESTException "Error setting mode to {}, error {} ")
   else mret tt) w =
  cancel_then_patch env roomId patchData w.
Proof.
  unfold cancel_then_patch, after, room_url.
  cbv beta iota zeta delta [mbind M_bind mret M_ret raise get_self requests_patch].
  destruct (respond env (sent w ++ [PATCH _ cancelBoostPostData])) as [| | r];
    [reflexivity | reflexivity |].
  destruct (status_code r =? 200); [| reflexivity].
  cbn [negb self sent hubIP]. rewrite <- app_assoc. cbn [app].
  destruct (respond env _) as [| | r']; [reflexivity | reflexivity |].
  destruct (status_code r' =? 200); reflexivity.
Qed.

Ltac finish_cancel_then_patch w roomId :=
  cbv beta iota zeta delta [negb];
  unfold mbind at 1; unfold M_bind at 1;
  cbv beta iota zeta delta [mret M_ret];
  apply cancel_then_patch_run.

Lemma setRoomMode_auto (roomId : Z) (mode : string) (boost_temp : Q) (boost_temp_time : Z)
    (w : World) :
  lower mode = "auto" →
  setRoomMode env recursionlimit roomId mode boost_temp boost_temp_time w =
    cancel_then_patch env roomId auto_patch w.
Proof.
  intros Hm. unfold setRoomMode. rewrite Hm.
  change (String.eqb "auto" "auto") with true.
  change (String.eqb "auto" "boost") with false.
  finish_cancel_then_patch w roomId.
Qed.

Lemma setRoomMode_off (roomId : Z) (mode : string) (boost_temp : Q) (boost_temp_time : Z)
    (w : World) :
  lower mode = "off" →
  setRoomMode env recursionlimit roomId mode boost_temp boost_temp_time w =
    cancel_then_patch env roomId (manual_patch (__toWiserTemp TEMP_OFF)) w.
Proof.
  intros Hm. unfold setRoomMode. rewrite Hm.
  change (String.eqb "off" "auto") with false.
  change (String.eqb "off" "boost") with false.
  change (String.eqb "off" "manual") with false.
  change (String.eqb "off" "off") with true.
  finish_cancel_then_patch w roomId.
Qed.

Lemma setRoomMode_manual (roomId : Z) (mode : string) (boost_temp : Q) (boost_temp_time : Z)
    (w : World) (d : HubData.t) (rooms : list Room.t) (room : Room.t) (scheduled : Z) :
  lower mode = "manual" →
  wiserHubData (self w) = Some d →
  HubData.Room d = Some rooms →
  find (λ room, bool_decide (Room.id room = Some roomId)) rooms = Some room →
  Room.ScheduledSetPoint room = Some scheduled →
  setRoomMode env recursionlimit roomId mode boost_temp boost_temp_time w =
    cancel_then_patch env roomId (manual_patch (Z.max scheduled 50)) w.
Proof.
  intros Hm Hd Hrooms Hfind Hsp. unfold setRoomMode. rewrite Hm.
  change (String.eqb "manual" "auto") with false.
  change (String.eqb "manual" "boost") with false.
  change (String.eqb "manual" "manual") with true.
  cbv beta iota.
  unfold mbind at 1. unfold M_bind at 1.
  unfold mbind at 1. unfold M_bind at 1.
  rewrite (getRoom_cached env recursionlimit roomId w d Hd), Hrooms, Hfind.
  rewrite Hsp. unfold mbind at 1. unfold M_bind at 1.
  cbv beta iota zeta delta [mret M_ret].
  rewrite clamp_scheduled.
  finish_cancel_then_patch w roomId.
Qed.

End SetRoomMode.

(** ** More paths through [refreshData] *)

Section MoreRefresh.
Context (env : Collaborators).

Lemma refreshData_body_invalid_json (reenter : M (option HubData.t)) (w : World) (r : Response) :
  respond env (sent w ++ [GET (hub_url (self w))]) = Responded r →
  status_ok r = true →
  resp_json env r = None →
  refreshData_body env reenter w =
    (Raise JSONDecodeError, after [GET (hub_url (self w))] w).
Proof.
  intros H Hst Hjson. unfold status_ok in Hst. apply negb_true_iff in Hst.
  unfold refreshData_body, hub_url, raise_for_status in *. unfold_monad.
  rewrite H. unfold_monad. rewrite Hst. unfold_monad. rewrite Hjson. reflexivity.
Qed.

(** The hub answers [null], and the fetch that [checkHubData] starts from
    inside the refresh finds the hub unreachable. *)
Lemma refreshData_body_null_then_unreachable (depth : nat) (w : World) (r : Response) :
  respond env (sent w ++ [GET (hub_url (self w))]) = Responded r →
  status_ok r = true →
  resp_json env r = Some None →
  respond env (sent w ++ [GET (hub_url (self w)); GET (hub_url (self w))])
    = ConnectionFailed →
  refreshData_body env (refreshData_depth env depth) w =
    (Raise (WiserHubDataNull "Hub data null even after refresh, aborting request"),
     {| self := set_wiserHubData None (self w);
        sent := sent w ++ [GET (hub_url (self w)); GET (hub_url (self w))] |}).
Proof.
  intros H Hst Hjson H2. unfold status_ok in Hst. apply negb_true_iff in Hst.
  change [GET (hub_url (self w)); GET (hub_url (self w))]
    with ([GET (hub_url (self w))] ++ [GET (hub_url (self w))]) in *.
  rewrite app_assoc in *.
  unfold refreshData_body at 1. unfold raise_for_status.
  cbv beta iota zeta delta
    [mbind M_bind mret M_ret raise get_self modify_self try_except
     requests_get Response_json].
  fold (hub_url (self w)).
  rewrite H. cbv beta iota. rewrite Hst. cbv beta iota. rewrite Hjson. cbv beta iota.
  cbn [self sent].
  set (w0 := {| self := set_wiserHubData None (self w);
                sent := sent w ++ [GET (hub_url (self w))] |}).
  assert (Hinner : refreshData_depth env depth w0 =
                   (Return None, after [GET (hub_url (self w))] w0)).
  { destruct depth; simpl;
      apply (refreshData_body_connection_failed env _ w0); exact H2. }
  unfold getRooms_in at 1, checkHubData_in at 1.
  cbv beta iota zeta delta [mbind M_bind mret M_ret raise get_self].
  cbn [self w0 set_wiserHubData wiserHubData].
  fold w0. rewrite Hinner. reflexivity.
Qed.

End MoreRefresh.

Section Reentry.
Context (env : Collaborators).

Lemma refreshData_body_catches_connection_failure (reenter : M (option HubData.t)) (w : World) :
  fst (refreshData_body env reenter w) ≠ Raise requests_ConnectionError.
Proof.
  unfold refreshData_body.
  match goal with
  | |- context [try_except ?b _] => generalize b; intros body
  end.
  unfold mbind at 1. unfold M_bind at 1. unfold try_except.
  destruct (body w) as [[e | a] w1].
  - destruct e; simpl; discriminate.
  - simpl. discriminate.
Qed.

Lemma checkHubData_in_uncached (refresh : M (option HubData.t)) (w : World) :
  wiserHubData (self w) = None →
  checkHubData_in refresh w =
    match refresh w with
    | (Raise e, w') => (Raise e, w')
    | (Return _, w') =>
        match wiserHubData (self w') with
        | Some _ => (Return tt, w')
        | None => (Raise (WiserHubDataNull
                            "Hub data null even after refresh, aborting request"), w')
        end
    end.
Proof.
  intros H. unfold checkHubData_in.
  cbv beta iota zeta delta [mbind M_bind mret M_ret raise get_self].
  rewrite H. destruct (refresh w) as [[e | a] w']; [reflexivity |].
  destruct (wiserHubData (self w')); reflexivity.
Qed.

End Reentry.

(** ** Binary64 *)

Lemma hub_values_forall (P : Z → bool) :
  forallb P hub_values = true → ∀ t, -1000 <= t < 2000 → P t = true.
Proof.
  intros H t Ht. rewrite forallb_forall in H. apply H.
  unfold hub_values. apply in_map_iff. exists (Z.to_nat (t + 1000)). split.
  - lia.
  - apply in_seq. lia.
Qed.

Lemma int_proper (x y : Q) : (x == y)%Q → int x = int y.
Proof.
  intros H. destruct (Qlt_le_dec x 0) as [Hneg | Hpos].
  - rewrite !int_nonpos by lra. apply Qceiling_comp. exact H.
  - rewrite !int_nonneg by lra. apply Qfloor_comp. exact H.
Qed.

Lemma Binary64_int_truncates (f : PrimFloat.float) :
  match Binary64.value f with
  | Some v => Binary64.int f = Some (if Qle_bool 0 v then Qfloor v else Qceiling v)
  | None => Binary64.int f = None
  end.
Proof.
  unfold Binary64.int. destruct (Binary64.value f) as [v |]; [| reflexivity].
  simpl. f_equal. destruct (Qle_bool 0 v) eqn:E.
  - apply Qle_bool_iff in E. apply int_nonneg. exact E.
  - apply int_nonpos. apply Qlt_le_weak, Qnot_le_lt. intros H.
    apply Qle_bool_iff in H. congruence.
Qed.

(** Where the product by 10 is exact, the encoder on rationals gives what the
    interpreter gives. *)
Lemma Binary64_toWiserTemp_exact_product (f : PrimFloat.float) (c p : Q) :
  Binary64.value f = Some c →
  Binary64.value (PrimFloat.mul f (Binary64.of_Z 10)) = Some p →
  (p == c * 10)%Q →
  Binary64.__toWiserTemp (Float f) = Some (__toWiserTemp c).
Proof.
  intros _ Hp Heq. unfold Binary64.__toWiserTemp, Binary64.int, __toWiserTemp.
  rewrite Hp. simpl. f_equal. apply int_proper. exact Heq.
Qed.

(** Where it is not, they part: the float nearest to 6.6 plus the float
    nearest to 0.1 lies below 6.7, and its product by 10 rounds to 67. *)
Lemma Binary64_toWiserTemp_rounded_product :
  Binary64.__toWiserTemp
    (Float (PrimFloat.add (PrimFloat.div (Binary64.of_Z 66) (Binary64.of_Z 10))
                          (PrimFloat.div (Binary64.of_Z 1) (Binary64.of_Z 10)))) = Some 67
  ∧ __toWiserTemp <$>
      Binary64.value
        (PrimFloat.add (PrimFloat.div (Binary64.of_Z 66) (Binary64.of_Z 10))
                       (PrimFloat.div (Binary64.of_Z 1) (Binary64.of_Z 10))) = Some 66.
Proof. split; vm_compute; reflexivity. Qed.

Lemma decodes_to_quotient_checked : forallb decodes_to_quotient hub_values = true.
Proof. vm_compute. reflexivity. Qed.

Lemma round_trips_checked : forallb round_trips hub_values = true.
Proof. vm_compute. reflexivity. Qed.

(** * The claims *)

(** ** C1: a connection failure during refresh *)

(** C1, as amended.  A connection failure raised by the transport never
    reaches the caller: [refreshData] catches it, whichever request it hits.
    If it hits the first request of the call, the fetch of the state
    document, the call returns the cached document, the object is left as it
    was (only the request is added to the log) and the document stays
    readable through [getHubData].  If it hits the fetch of the network
    document after a state document was parsed, the call returns that
    document, which is the one cached.  If the hub answered [null] and the
    failure hits the fetch that the refresh starts again from inside, the
    call ends with [WiserHubDataNull] and no document is cached any more. *)
Theorem refreshData_swallows_connection_failure (env : Collaborators) (recursionlimit : nat) (w : World) :
  (respond env (sent w ++ [GET (hub_url (self w))]) = ConnectionFailed →
   refreshData env recursionlimit w =
     (Return (wiserHubData (self w)), after [GET (hub_url (self w))] w)
   ∧ ∀ d, wiserHubData (self w) = Some d →
          getHubData env recursionlimit (after [GET (hub_url (self w))] w) =
            (Return (Some d), after [GET (hub_url (self w))] w))
  ∧ (∀ r d,
       respond env (sent w ++ [GET (hub_url (self w))]) = Responded r →
       status_ok r = true →
       resp_json env r = Some (Some d) →
       respond env (sent w ++ [GET (hub_url (self w)); GET (network_url (self w))])
         = ConnectionFailed →
       fst (refreshData env recursionlimit w) = Return (Some d)
       ∧ wiserHubData (self (snd (refreshData env recursionlimit w))) = Some d)
  ∧ fst (refreshData env recursionlimit w) ≠ Raise requests_ConnectionError
  ∧ (∀ r,
       respond env (sent w ++ [GET (hub_url (self w))]) = Responded r →
       status_ok r = true →
       resp_json env r = Some None →
       respond env (sent w ++ [GET (hub_url (self w)); GET (hub_url (self w))])
         = ConnectionFailed →
       (0 < recursionlimit)%nat →
       fst (refreshData env recursionlimit w) =
         Raise (WiserHubDataNull "Hub data null even after refresh, aborting request")
       ∧ wiserHubData (self (snd (refreshData env recursionlimit w))) = None).
Proof.
  split; [| split; [| split]].
  - intros H. split.
    + rewrite refreshData_unfold. apply refreshData_body_connection_failed. exact H.
    + intros d Hd. apply getHubData_cached. exact Hd.
  - intros r d Hr Hok Hjson Hnet.
    rewrite refreshData_unfold, (refreshData_body_fetched env _ w r d Hr Hok Hjson).
    cbv zeta. rewrite Hnet. split; reflexivity.
  - rewrite refreshData_unfold. apply refreshData_body_catches_connection_failure.
  - intros r Hr Hok Hjson Hnested Hlimit.
    destruct recursionlimit as [| depth]; [lia |].
    unfold refreshData. simpl refreshData_depth.
    rewrite (refreshData_body_null_then_unreachable env depth w r Hr Hok Hjson Hnested).
    split; reflexivity.
Qed.

(** Witness for C1: the hub served one document to the constructor and
    is unreachable afterwards. *)
Lemma refreshData_swallows_connection_failure_witness :
  respond (Example.serving ["hall"])
    (sent (Example.constructed (Example.serving ["hall"]))
     ++ [GET (hub_url (self (Example.constructed (Example.serving ["hall"]))))])
    = ConnectionFailed
  ∧ refreshData (Example.serving ["hall"]) 0 (Example.constructed (Example.serving ["hall"])) =
      (Return (wiserHubData (self (Example.constructed (Example.serving ["hall"])))),
       after [GET (hub_url (self (Example.constructed (Example.serving ["hall"]))))]
         (Example.constructed (Example.serving ["hall"]))).
Proof.
  assert (H : respond (Example.serving ["hall"])
                (sent (Example.constructed (Example.serving ["hall"]))
                 ++ [GET (hub_url (self (Example.constructed (Example.serving ["hall"]))))])
              = ConnectionFailed) by (vm_compute; reflexivity).
  split; [exact H |].
  exact (proj1 (proj1 (refreshData_swallows_connection_failure (Example.serving ["hall"]) 0
                         (Example.constructed (Example.serving ["hall"]))) H)).
Defined.

(** Counterexample to C1 as stated: the transport raises a connection
    failure on the state document and [refreshData] returns the cached
    document instead of raising. *)
Lemma refreshData_returns_on_connection_failure :
  respond (Example.serving ["hall"])
    (sent (Example.constructed (Example.serving ["hall"]))
     ++ [GET (hub_url (self (Example.constructed (Example.serving ["hall"]))))])
    = ConnectionFailed
  ∧ fst (refreshData (Example.serving ["hall"]) 0
           (Example.constructed (Example.serving ["hall"])))
    = Return (Some (Example.document [Example.hall])).
Proof. split; vm_compute; reflexivity. Qed.

(** ** C2: HTTP error statuses during refresh *)

(** The handler for [requests.HTTPError] reads the attribute [status_code] of
    [self.wiserHubData], which is [None] or the parsed document and never a
    response: for every 4xx or 5xx status the refresh ends with
    [AttributeError], before any of the three [raise] statements of the
    handler is reached. *)
Lemma refreshData_http_error (env : Collaborators) (recursionlimit : nat) (w : World) (r : Response) :
  respond env (sent w ++ [GET (hub_url (self w))]) = Responded r →
  400 <= status_code r < 600 →
  refreshData env recursionlimit w = (Raise AttributeError, after [GET (hub_url (self w))] w).
Proof.
  intros Hr Hst. rewrite refreshData_unfold.
  apply (refreshData_body_http_error env _ w r Hr).
  unfold status_ok. apply negb_false_iff, andb_true_iff. split.
  - apply Z.leb_le. lia.
  - apply Z.ltb_lt. lia.
Qed.

(** C2, evaluated at the failing input: a hub that answers 401.  Neither
    the constructor nor a later refresh raises
    [WiserHubAuthenticationException]; both end with [AttributeError]. *)
Theorem refreshData_unauthorized_raises_AttributeError :
  fst (__init__ Example.unauthorized 0 "192.168.1.10" "secret" Example.blank)
    = Raise AttributeError
  ∧ fst (refreshData Example.unauthorized 0 (Example.constructed (Example.serving ["hall"])))
    = Raise AttributeError.
Proof. split; vm_compute; reflexivity. Qed.

(** ** C3: the device-to-room index after a refresh *)

(** C3, as amended.  After a successful refresh that fetched the document
    [d], the index is the mapping derived from [d] laid over the index as it
    was before: the keys of the derived mapping are exactly the device ids
    listed by some room of [d] as [RoomStatId] or in [SmartValveIds], each
    resolves to the id and name of a room listing it, and every other key
    keeps the entry it had before the refresh. *)
Theorem refreshData_merges_index (env : Collaborators) (recursionlimit : nat) (w : World) (r1 r2 : Response) (d : HubData.t)
    (v : option NetworkData.t) :
  respond env (sent w ++ [GET (hub_url (self w))]) = Responded r1 →
  status_ok r1 = true →
  resp_json env r1 = Some (Some d) →
  respond env (sent w ++ [GET (hub_url (self w)); GET (network_url (self w))])
    = Responded r2 →
  json_loads env (strip_non_printable (content r2)) = Some v →
  let w' := snd (refreshData env recursionlimit w) in
  fst (refreshData env recursionlimit w) = Return (Some d)
  ∧ wiserHubData (self w') = Some d
  ∧ device2roomMap (self w') = derived_index d ∪ device2roomMap (self w)
  ∧ (∀ k, is_Some (derived_index d !! k) ↔
          ∃ room, room ∈ default [] (HubData.Room d) ∧ k ∈ room_devices room)
  ∧ (∀ k ref, derived_index d !! k = Some ref →
          ∃ room, room ∈ default [] (HubData.Room d) ∧ k ∈ room_devices room
                  ∧ ref = room_ref room)
  ∧ (∀ k, derived_index d !! k = None →
          device2roomMap (self w') !! k = device2roomMap (self w) !! k).
Proof.
  intros Hr1 Hok Hjson Hr2 Hloads w'. subst w'.
  rewrite refreshData_unfold, (refreshData_body_fetched env _ w r1 d Hr1 Hok Hjson).
  cbv zeta. rewrite Hr2, Hloads. cbn [fst snd self refreshed wiserHubData device2roomMap].
  split; [reflexivity |]. split; [reflexivity |].
  split; [apply add_rooms_union |].
  split; [apply derived_index_keys |].
  split.
  - intros k ref H. unfold derived_index in H. apply add_rooms_lookup_Some in H.
    destruct H as [H | H]; [| exact H]. rewrite lookup_empty in H. discriminate.
  - intros k H. rewrite add_rooms_union. fold (derived_index d).
    rewrite lookup_union, H. destruct (device2roomMap (self w) !! k); reflexivity.
Qed.

(** Witness for C3: the first refresh against a hub serving one
    document. *)
Lemma refreshData_merges_index_witness :
  device2roomMap (self (snd (refreshData (Example.serving ["hall"]) 0 Example.blank))) =
    derived_index (Example.document [Example.hall]) ∪ device2roomMap (self Example.blank).
Proof.
  apply (refreshData_merges_index (Example.serving ["hall"]) 0 Example.blank
           {| status_code := 200; content := "hall" |}
           {| status_code := 200; content := String (ascii_of_N 1) "network" |}
           (Example.document [Example.hall]) (Some Example.network));
    vm_compute; reflexivity.
Defined.

(** Counterexample to C3 as stated: the constructor indexed device 99
    under the hall; the next refresh succeeds with a document in which no
    room lists device 99, and the key is still in the index. *)
Lemma device_index_keeps_stale_keys :
  fst (refreshData (Example.serving ["hall"; "study"]) 0
         (Example.constructed (Example.serving ["hall"; "study"])))
    = Return (Some (Example.document [Example.study]))
  ∧ derived_index (Example.document [Example.study]) !! 99 = None
  ∧ device2roomMap
      (self (snd (refreshData (Example.serving ["hall"; "study"]) 0
                    (Example.constructed (Example.serving ["hall"; "study"])))))
      !! 99 = Some {| roomId := Some 1; roomName := Some "Hall" |}.
Proof. repeat split; vm_compute; reflexivity. Qed.

(** ** C4: the heating relay status *)

(** C4, as amended.  [getHeatingRelayStatus] goes through
    [getHeatingChannels] and so through [checkHubData].  On a cached document
    with heating channels it returns "On" if some channel reports "On" and
    "Off" if none does, without any request.  With no document cached it
    refreshes first: an error that the refresh raises is the error of the
    call, which is [WiserHubTimeoutException] after a timeout,
    [AttributeError] after a 4xx or 5xx status and [JSONDecodeError] after a
    body that is not JSON; and when the refresh returns and has cached no
    document, which is what it does after a connection failure, the call
    fails with [WiserHubDataNull]. *)
Theorem getHeatingRelayStatus_any_channel_on (env : Collaborators) (recursionlimit : nat) (w : World) :
  (∀ d channels,
     wiserHubData (self w) = Some d →
     HubData.HeatingChannel d = Some channels →
     ((∃ ch, ch ∈ channels ∧ HeatingChannel.HeatingRelayState ch = Some "On") →
      getHeatingRelayStatus env recursionlimit w = (Return "On", w))
     ∧ ((∀ ch, ch ∈ channels → HeatingChannel.HeatingRelayState ch ≠ Some "On") →
        getHeatingRelayStatus env recursionlimit w = (Return "Off", w)))
  ∧ (wiserHubData (self w) = None →
     respond env (sent w ++ [GET (hub_url (self w))]) = ConnectionFailed →
     getHeatingRelayStatus env recursionlimit w =
       (Raise (WiserHubDataNull "Hub data null even after refresh, aborting request"),
        after [GET (hub_url (self w))] w))
  ∧ (∀ e w',
       wiserHubData (self w) = None →
       refreshData env recursionlimit w = (Raise e, w') →
       getHeatingRelayStatus env recursionlimit w = (Raise e, w'))
  ∧ (∀ a w',
       wiserHubData (self w) = None →
       refreshData env recursionlimit w = (Return a, w') →
       wiserHubData (self w') = None →
       getHeatingRelayStatus env recursionlimit w =
         (Raise (WiserHubDataNull "Hub data null even after refresh, aborting request"),
          w'))
  ∧ (wiserHubData (self w) = None →
     (respond env (sent w ++ [GET (hub_url (self w))]) = TimedOut →
      getHeatingRelayStatus env recursionlimit w =
        (Raise (WiserHubTimeoutException "The connection timed out."),
         after [GET (hub_url (self w))] w))
     ∧ (∀ r, respond env (sent w ++ [GET (hub_url (self w))]) = Responded r →
             status_ok r = false →
             getHeatingRelayStatus env recursionlimit w =
               (Raise AttributeError, after [GET (hub_url (self w))] w))
     ∧ (∀ r, respond env (sent w ++ [GET (hub_url (self w))]) = Responded r →
             status_ok r = true →
             resp_json env r = None →
             getHeatingRelayStatus env recursionlimit w =
               (Raise JSONDecodeError, after [GET (hub_url (self w))] w))).
Proof.
  split; [| split; [| split; [| split]]].
  - intros d channels Hd Hch.
    assert (Hrun : getHeatingRelayStatus env recursionlimit w =
                   (Return (if existsb (λ ch, bool_decide
                                 (HeatingChannel.HeatingRelayState ch = Some "On")) channels
                            then "On" else "Off"), w)).
    { unfold getHeatingRelayStatus. unfold_bind.
      rewrite (getHeatingChannels_cached env recursionlimit w d Hd), Hch.
      rewrite relay_fold. reflexivity. }
    rewrite Hrun. split.
    + intros (ch & Hin & Hon).
      assert (E : existsb (λ ch, bool_decide
                    (HeatingChannel.HeatingRelayState ch = Some "On")) channels = true).
      { apply existsb_exists. exists ch. split.
        - apply list_elem_of_In. exact Hin.
        - apply bool_decide_eq_true. exact Hon. }
      rewrite E. reflexivity.
    + intros Hoff.
      assert (E : existsb (λ ch, bool_decide
                    (HeatingChannel.HeatingRelayState ch = Some "On")) channels = false).
      { apply not_true_is_false. intros E. apply existsb_exists in E.
        destruct E as (ch & Hin & Hon). apply bool_decide_eq_true in Hon.
        apply (Hoff ch); [apply list_elem_of_In; exact Hin | exact Hon]. }
      rewrite E. reflexivity.
  - intros Hnone Hfail. unfold getHeatingRelayStatus, getHeatingChannels. unfold_bind.
    rewrite (checkHubData_unreachable env recursionlimit w Hnone Hfail). reflexivity.
  - intros e w' Hnone Hrefresh.
    unfold getHeatingRelayStatus, getHeatingChannels, checkHubData. unfold_bind.
    rewrite (checkHubData_in_uncached _ w Hnone), Hrefresh. reflexivity.
  - intros a w' Hnone Hrefresh Hstill.
    unfold getHeatingRelayStatus, getHeatingChannels, checkHubData. unfold_bind.
    rewrite (checkHubData_in_uncached _ w Hnone), Hrefresh, Hstill. reflexivity.
  - intros Hnone. repeat split.
    + intros H.
      unfold getHeatingRelayStatus, getHeatingChannels, checkHubData. unfold_bind.
      rewrite (checkHubData_in_uncached _ w Hnone), refreshData_unfold,
        (refreshData_body_timed_out env _ w H).
      reflexivity.
    + intros r Hr Hst.
      unfold getHeatingRelayStatus, getHeatingChannels, checkHubData. unfold_bind.
      rewrite (checkHubData_in_uncached _ w Hnone), refreshData_unfold,
        (refreshData_body_http_error env _ w r Hr Hst).
      reflexivity.
    + intros r Hr Hst Hjson.
      unfold getHeatingRelayStatus, getHeatingChannels, checkHubData. unfold_bind.
      rewrite (checkHubData_in_uncached _ w Hnone), refreshData_unfold,
        (refreshData_body_invalid_json env _ w r Hr Hst Hjson).
      reflexivity.
Qed.

(** Witness for C4: two channels, the second one on. *)
Lemma getHeatingRelayStatus_any_channel_on_witness :
  getHeatingRelayStatus (Example.serving ["hall"]) 0
    (Example.constructed (Example.serving ["hall"])) =
  (Return "On", Example.constructed (Example.serving ["hall"])).
Proof.
  apply (proj1 (getHeatingRelayStatus_any_channel_on (Example.serving ["hall"]) 0
                  (Example.constructed (Example.serving ["hall"])))
           (Example.document [Example.hall]) Example.channels).
  - vm_compute. reflexivity.
  - reflexivity.
  - exists {| HeatingChannel.id := Some 2; HeatingChannel.HeatingRelayState := Some "On" |}.
    split; [| reflexivity]. unfold Example.channels. apply list_elem_of_further, list_elem_of_here.
Defined.

(** Counterexample to C4 as stated: a facade constructed while the hub was
    unreachable has no document, and [getHeatingRelayStatus] fails on it. *)
Lemma getHeatingRelayStatus_fails_without_document :
  wiserHubData (self (Example.constructed (Example.serving []))) = None
  ∧ fst (getHeatingRelayStatus (Example.serving []) 0 (Example.constructed (Example.serving [])))
    = Raise (WiserHubDataNull "Hub data null even after refresh, aborting request").
Proof. split; vm_compute; reflexivity. Qed.

(** ** C5: the requests of [setRoomMode] *)

(** C5, as amended.  For a recognized mode whose patch body gets built:
    in boost mode with a temperature within 5 and 30 the only request is the
    boost PATCH (outside that range the call fails with [ValueError] and sends
    nothing); in the modes auto, off and manual (room found in the cached
    document) the cancellation PATCH is sent first, and the mode's PATCH
    follows exactly when the cancellation was answered with status 200;
    otherwise the cancellation is the only request and the call fails. *)
Theorem setRoomMode_patch_sequence (env : Collaborators) (recursionlimit : nat) (roomId : Z) (mode : string) (boost_temp : Q)
    (boost_temp_time : Z) (w : World) :
  let url := room_url (self w) roomId in
  let run := setRoomMode env recursionlimit roomId mode boost_temp boost_temp_time w in
  (lower mode = "boost" →
     ((5 <= boost_temp ∧ boost_temp <= 30)%Q →
      sent (snd run) = sent w ++ [PATCH url (boost_patch boost_temp boost_temp_time)])
     ∧ ((boost_temp < 5 ∨ 30 < boost_temp)%Q →
        run = (Raise (ValueError
                 "Boost temperature is set to {}. Boost temperature can only be between {} and {}."),
               w)))
  ∧ (∀ patchData,
       (lower mode = "auto" ∧ patchData = auto_patch)
       ∨ (lower mode = "off" ∧ patchData = manual_patch (-200))
       ∨ (lower mode = "manual" ∧
          ∃ d rooms room scheduled,
            wiserHubData (self w) = Some d ∧ HubData.Room d = Some rooms ∧
            find (λ room, bool_decide (Room.id room = Some roomId)) rooms = Some room ∧
            Room.ScheduledSetPoint room = Some scheduled ∧
            patchData = manual_patch (Z.max scheduled 50)) →
       match respond env (sent w ++ [PATCH url cancelBoostPostData]) with
       | Responded r =>
           if status_code r =? 200
           then sent (snd run) =
                  sent w ++ [PATCH url cancelBoostPostData; PATCH url patchData]
           else run = (Raise (WiserRESTException "Error cancelling boost {} "),
                       after [PATCH url cancelBoostPostData] w)
       | TimedOut =>
           run = (Raise requests_Timeout, after [PATCH url cancelBoostPostData] w)
       | ConnectionFailed =>
           run = (Raise requests_ConnectionError, after [PATCH url cancelBoostPostData] w)
       end).
Proof.
  intros url run. subst url run. split.
  - intros Hm. rewrite (setRoomMode_boost env recursionlimit _ _ _ _ _ Hm). split.
    + intros [Hlo Hhi].
      assert (E1 : Qltb boost_temp TEMP_MINIMUM = false).
      { apply not_true_is_false. intros E. apply Qltb_lt in E.
        exact (Qlt_not_le _ _ E Hlo). }
      assert (E2 : Qltb TEMP_MAXIMUM boost_temp = false).
      { apply not_true_is_false. intros E. apply Qltb_lt in E.
        exact (Qlt_not_le _ _ E Hhi). }
      rewrite E1, E2. cbv zeta. cbn [orb].
      destruct (respond env _) as [| | r]; try reflexivity.
      destruct (status_code r =? 200); reflexivity.
    + intros Hout.
      assert (E : Qltb boost_temp TEMP_MINIMUM || Qltb TEMP_MAXIMUM boost_temp = true).
      { apply orb_true_iff. destruct Hout as [H | H]; [left | right]; apply Qltb_lt; exact H. }
      rewrite E. reflexivity.
  - intros patchData Hcase.
    assert (Hrun : setRoomMode env recursionlimit roomId mode boost_temp boost_temp_time w =
                   cancel_then_patch env roomId patchData w).
    { destruct Hcase as [[Hm ->] | [[Hm ->] | [Hm (d & rooms & room & scheduled & H)]]].
      - apply setRoomMode_auto. exact Hm.
      - apply setRoomMode_off. exact Hm.
      - destruct H as (Hd & Hrooms & Hfind & Hsp & ->).
        apply (setRoomMode_manual env recursionlimit _ _ _ _ _ d rooms room); assumption. }
    rewrite Hrun. unfold cancel_then_patch.
    destruct (respond env (sent w ++ [PATCH _ cancelBoostPostData])) as [| | r];
      [reflexivity | reflexivity |].
    destruct (status_code r =? 200); [| reflexivity].
    destruct (respond env _) as [| | r']; try reflexivity.
    destruct (status_code r' =? 200); reflexivity.
Qed.

(** Witness for C5: boost to 22 degrees for 30 minutes. *)
Lemma setRoomMode_patch_sequence_witness :
  sent (snd (setRoomMode (Example.serving ["hall"]) 0 1 "Boost" 22 30
               (Example.constructed (Example.serving ["hall"])))) =
  sent (Example.constructed (Example.serving ["hall"])) ++
  [PATCH (room_url (self (Example.constructed (Example.serving ["hall"]))) 1)
     (boost_patch 22 30)].
Proof.
  apply (proj1 (setRoomMode_patch_sequence (Example.serving ["hall"]) 0 1 "Boost" 22 30
                  (Example.constructed (Example.serving ["hall"])))).
  - reflexivity.
  - split; vm_compute; discriminate.
Defined.

(** Counterexample to C5 as stated: boost is a recognized mode, and with a
    boost temperature of 40 no PATCH is sent at all. *)
Lemma setRoomMode_boost_out_of_range_sends_nothing :
  lower "boost" = "boost"
  ∧ setRoomMode (Example.serving ["hall"]) 0 1 "boost" 40 30
      (Example.constructed (Example.serving ["hall"])) =
    (Raise (ValueError
       "Boost temperature is set to {}. Boost temperature can only be between {} and {}."),
     Example.constructed (Example.serving ["hall"])).
Proof. split; vm_compute; reflexivity. Qed.

(** ** C6: the temperature encoding *)

(** C6, as amended.  The encoding is [int(celsius * 10)].  For an int
    the product is exact, so that the value sent is ten times the input, which
    is also what [round] gives.  For a float the product is the one of
    binary64, and the value sent is that product truncated toward zero: its
    floor when it is not negative, its ceiling when it is negative; [int]
    raises when the product is an infinity or a NaN.  Decoding divides the hub
    value by 10 and rounds to one decimal place; for the hub values from -1000
    up to 2000 the rounding leaves the quotient as the division gave it, within
    2^-46 of the tenth of the hub value. *)
Theorem toWiserTemp_truncates :
  (∀ z : Z,
     Binary64.__toWiserTemp (Int z) = Some (z * 10)
     ∧ round (inject_Z z * 10) = z * 10)
  ∧ (∀ f : PrimFloat.float,
       match Binary64.value (PrimFloat.mul f (Binary64.of_Z 10)) with
       | Some v =>
           Binary64.__toWiserTemp (Float f) =
             Some (if Qle_bool 0 v then Qfloor v else Qceiling v)
       | None => Binary64.__toWiserTemp (Float f) = None
       end)
  ∧ (∀ t : Z, -1000 <= t < 2000 →
       FloatOps.Prim2SF (Binary64.__fromWiserTemp t) =
         FloatOps.Prim2SF (PrimFloat.div (Binary64.of_Z t) (Binary64.of_Z 10))
       ∧ ∃ v, Binary64.value (Binary64.__fromWiserTemp t) = Some v
              ∧ (Qabs (v - inject_Z t / 10) <= 1 # 2 ^ 46)%Q).
Proof.
  split; [| split].
  - intros z. split; [reflexivity |].
    apply round_integral. rewrite inject_Z_mult. reflexivity.
  - intros f. apply Binary64_int_truncates.
  - intros t Ht.
    pose proof (hub_values_forall _ decodes_to_quotient_checked t Ht) as H.
    unfold decodes_to_quotient in H. apply andb_true_iff in H as [H1 H2].
    split; [apply bool_decide_eq_true in H1; exact H1 |].
    destruct (Binary64.value (Binary64.__fromWiserTemp t)) as [v |]; [| discriminate].
    exists v. split; [reflexivity |]. apply Qle_bool_iff. exact H2.
Qed.

(** Witness for C6: the hub value 203. *)
Lemma toWiserTemp_truncates_witness :
  FloatOps.Prim2SF (Binary64.__fromWiserTemp 203) =
  FloatOps.Prim2SF (PrimFloat.div (Binary64.of_Z 203) (Binary64.of_Z 10)).
Proof.
  apply (proj2 (proj2 toWiserTemp_truncates) 203). lia.
Defined.

(** Counterexample to C6 as stated: the float 20.875, which is 167/8, is sent
    as 208; its product by 10 is 208.75, and [round] gives 209. *)
Lemma toWiserTemp_is_not_round :
  (λ c, Qeq_bool c (167 # 8)) <$>
    Binary64.value (PrimFloat.div (Binary64.of_Z 167) (Binary64.of_Z 8)) = Some true
  ∧ Binary64.__toWiserTemp
      (Float (PrimFloat.div (Binary64.of_Z 167) (Binary64.of_Z 8))) = Some 208
  ∧ round <$>
      Binary64.value
        (PrimFloat.mul (PrimFloat.div (Binary64.of_Z 167) (Binary64.of_Z 8))
                       (Binary64.of_Z 10)) = Some 209.
Proof. repeat split; vm_compute; reflexivity. Qed.

(** ** C7: manual mode starts at the scheduled set-point *)

(** C7.  In manual mode, with the room in the cached document and the
    cancellation accepted, the PATCH that follows carries the scheduled
    set-point decoded, raised to the minimum when below it, and encoded
    again: in hub units the larger of the scheduled set-point and 50, and
    the encoding of 5 degrees whenever the scheduled set-point decodes below
    5. *)
Theorem setRoomMode_manual_clamps_setpoint (env : Collaborators) (recursionlimit : nat) (roomId : Z) (mode : string) (boost_temp : Q)
    (boost_temp_time : Z) (w : World) (d : HubData.t) (rooms : list Room.t)
    (room : Room.t) (scheduled : Z) (r : Response) :
  lower mode = "manual" →
  wiserHubData (self w) = Some d →
  HubData.Room d = Some rooms →
  find (λ room, bool_decide (Room.id room = Some roomId)) rooms = Some room →
  Room.ScheduledSetPoint room = Some scheduled →
  respond env (sent w ++ [PATCH (room_url (self w) roomId) cancelBoostPostData])
    = Responded r →
  status_code r = 200 →
  let setTemp := if Qle_bool TEMP_MINIMUM (__fromWiserTemp scheduled)
                 then __fromWiserTemp scheduled else TEMP_MINIMUM in
  sent (snd (setRoomMode env recursionlimit roomId mode boost_temp boost_temp_time w)) =
    sent w ++ [PATCH (room_url (self w) roomId) cancelBoostPostData;
               PATCH (room_url (self w) roomId) (manual_patch (__toWiserTemp setTemp))]
  ∧ __toWiserTemp setTemp = Z.max scheduled 50
  ∧ ((__fromWiserTemp scheduled < 5)%Q → __toWiserTemp setTemp = __toWiserTemp 5).
Proof.
  intros Hm Hd Hrooms Hfind Hsp Hr Hst setTemp. subst setTemp.
  rewrite clamp_scheduled.
  rewrite (setRoomMode_manual env recursionlimit _ _ _ _ _ d rooms room scheduled
             Hm Hd Hrooms Hfind Hsp).
  unfold cancel_then_patch. rewrite Hr, Hst. cbn [Z.eqb Pos.eqb].
  split; [| split].
  - match goal with
    | |- context [respond env ?l] => destruct (respond env l) as [| | r']
    end; try reflexivity.
    destruct (status_code r' =? 200); reflexivity.
  - reflexivity.
  - intros Hlt. rewrite fromWiserTemp_exact in Hlt.
    unfold Qlt in Hlt. simpl in Hlt. change (__toWiserTemp 5) with 50. lia.
Qed.

(** Witness for C7: the hall is scheduled at 3.0 degrees (30 in hub
    units); the override is sent with 50. *)
Lemma setRoomMode_manual_clamps_setpoint_witness :
  sent (snd (setRoomMode (Example.serving ["hall"]) 0 1 "Manual" 20 30
               (Example.constructed (Example.serving ["hall"])))) =
  sent (Example.constructed (Example.serving ["hall"])) ++
  [PATCH (room_url (self (Example.constructed (Example.serving ["hall"]))) 1)
     cancelBoostPostData;
   PATCH (room_url (self (Example.constructed (Example.serving ["hall"]))) 1)
     (manual_patch 50)].
Proof.
  apply (setRoomMode_manual_clamps_setpoint (Example.serving ["hall"]) 0 1 "Manual" 20 30
           (Example.constructed (Example.serving ["hall"]))
           (Example.document [Example.hall]) [Example.hall] Example.hall 30
           {| status_code := 200; content := "" |});
    vm_compute; reflexivity.
Defined.

(** ** C8: absent sections and absent ids *)

(** C8, as amended.  On a cached document: [getRoom] fails with
    [WiserNoRoomsFound] when the Room section is null or missing and with
    [WiserNotFound] when the section is there, empty or not, without a record
    of that id; [getDevice] fails with [WiserNotFound] in the second case and
    with another error when the Device section is null or missing;
    [getRoomStatData] fails with [WiserNotFound] for a null section as for a
    missing id; the smart plug accessors fail with [WiserNotFound] for a
    missing section as for a missing id. *)
Theorem by_id_accessors_absence (env : Collaborators) (recursionlimit : nat) (w : World) (d : HubData.t) (id : Z) :
  wiserHubData (self w) = Some d →
  (HubData.Room d = None →
     getRoom env recursionlimit id w =
       (Raise (WiserNoRoomsFound "No rooms found in Wiser payload"), w))
  ∧ (∀ rooms, HubData.Room d = Some rooms →
       (∀ room, room ∈ rooms → Room.id room ≠ Some id) →
       getRoom env recursionlimit id w = (Raise (WiserNotFound "Room {} not found"), w))
  ∧ (HubData.Device d = None →
       ∃ e, getDevice env recursionlimit id w = (Raise e, w) ∧ ∀ msg, e ≠ WiserNotFound msg)
  ∧ (∀ devices, HubData.Device d = Some devices →
       (∀ device, device ∈ devices → Device.id device ≠ Some id) →
       getDevice env recursionlimit id w = (Raise (WiserNotFound "Device {} not found "), w))
  ∧ (HubData.RoomStat d = Null →
       getRoomStatData env recursionlimit id w =
         (Raise (WiserNotFound "deviceID {} not found "), w))
  ∧ (∀ roomStats, HubData.RoomStat d = Value roomStats →
       (∀ roomStat, roomStat ∈ roomStats → RoomStat.id roomStat ≠ Some id) →
       getRoomStatData env recursionlimit id w =
         (Raise (WiserNotFound "getRoomStatData for deviceID {} not found due"), w))
  ∧ ((HubData.SmartPlug d = None
      ∨ ∃ plugs, HubData.SmartPlug d = Some plugs
                 ∧ ∀ plug, plug ∈ plugs → SmartPlug.id plug ≠ Some id) →
       getSmartPlug env recursionlimit id w =
         (Raise (WiserNotFound "Unable to find smartPlug {}"), w)
       ∧ getSmartPlugState env recursionlimit id w =
           (Raise (WiserNotFound "Unable to find smartPlug {}"), w)
       ∧ getSmartPlugMode env recursionlimit id w =
           (Raise (WiserNotFound "Unable to find smartPlug {}"), w)).
Proof.
  intros Hd. repeat split.
  - intros H. rewrite (getRoom_cached env recursionlimit id w d Hd), H. reflexivity.
  - intros rooms H Hno. rewrite (getRoom_cached env recursionlimit id w d Hd), H.
    rewrite find_no_match; [reflexivity |].
    intros room Hin. apply bool_decide_eq_false. apply Hno. exact Hin.
  - intros H. rewrite (getDevice_cached env recursionlimit id w d Hd), H.
    eexists. split; [reflexivity | discriminate].
  - intros devices H Hno. rewrite (getDevice_cached env recursionlimit id w d Hd), H.
    rewrite find_no_match; [reflexivity |].
    intros device Hin. apply bool_decide_eq_false. apply Hno. exact Hin.
  - intros H. rewrite (getRoomStatData_cached env recursionlimit id w d Hd), H. reflexivity.
  - intros roomStats H Hno.
    rewrite (getRoomStatData_cached env recursionlimit id w d Hd), H.
    rewrite find_no_match; [reflexivity |].
    intros roomStat Hin. apply bool_decide_eq_false. apply Hno. exact Hin.
  - unfold getSmartPlug. unfold_bind.
    rewrite (scan_smart_plugs_cached env recursionlimit id w d Hd).
    destruct H as [H | (plugs & H & Hno)]; rewrite H; simpl; [reflexivity |].
    rewrite find_no_match; [reflexivity |].
    intros plug Hin. apply bool_decide_eq_false. apply Hno. exact Hin.
  - unfold getSmartPlugState. unfold_bind.
    rewrite (scan_smart_plugs_cached env recursionlimit id w d Hd).
    destruct H as [H | (plugs & H & Hno)]; rewrite H; simpl; [reflexivity |].
    rewrite find_no_match; [reflexivity |].
    intros plug Hin. apply bool_decide_eq_false. apply Hno. exact Hin.
  - unfold getSmartPlugMode. unfold_bind.
    rewrite (scan_smart_plugs_cached env recursionlimit id w d Hd).
    destruct H as [H | (plugs & H & Hno)]; rewrite H; simpl; [reflexivity |].
    rewrite find_no_match; [reflexivity |].
    intros plug Hin. apply bool_decide_eq_false. apply Hno. exact Hin.
Qed.

(** Witness for C8: no room has id 5. *)
Lemma by_id_accessors_absence_witness :
  getRoom (Example.serving ["hall"]) 0 5 (Example.constructed (Example.serving ["hall"])) =
  (Raise (WiserNotFound "Room {} not found"), Example.constructed (Example.serving ["hall"])).
Proof.
  apply (proj1 (proj2 (by_id_accessors_absence (Example.serving ["hall"]) 0
                         (Example.constructed (Example.serving ["hall"]))
                         (Example.document [Example.hall]) 5 eq_refl))
           [Example.hall] eq_refl).
  intros room Hin. apply list_elem_of_singleton in Hin. subst room. discriminate.
Defined.

(** Counterexample to C8 as stated: the Room section is the empty list
    and [getRoom] fails with [WiserNotFound], not [WiserNoRoomsFound]. *)
Lemma getRoom_empty_section_is_NotFound :
  HubData.Room (Example.document []) = Some []
  ∧ wiserHubData (self (Example.constructed (Example.serving ["empty"])))
    = Some (Example.document [])
  ∧ fst (getRoom (Example.serving ["empty"]) 0 1 (Example.constructed (Example.serving ["empty"])))
    = Raise (WiserNotFound "Room {} not found").
Proof. repeat split; vm_compute; reflexivity. Qed.

(** ** C9: temperatures out of range *)

(** C9.  For a temperature below 5 or above 30 that is not -20,
    [setRoomTemperature] fails with [ValueError] and leaves the world as it
    was: nothing is added to the log of requests. *)
Theorem setRoomTemperature_rejects_out_of_range (env : Collaborators) (roomId : Z) (t : Q) (w : World) :
  (t < 5 ∨ 30 < t)%Q → ¬ (t == -20)%Q →
  setRoomTemperature env roomId t w =
    (Raise (ValueError
       "SetRoomTemperature : value of temperature must be between {} and {} OR {} (off)"),
     w).
Proof.
  intros Hout Hoff. unfold setRoomTemperature.
  destruct (__checkTempRange t) eqn:E; [| reflexivity].
  apply checkTempRange_spec in E. exfalso.
  destruct E as [E | [Hlo Hhi]]; [exact (Hoff E) |].
  destruct Hout as [H | H].
  - exact (Qlt_not_le _ _ H Hlo).
  - exact (Qlt_not_le _ _ H Hhi).
Qed.

(** Witness for C9: 31 degrees. *)
Lemma setRoomTemperature_rejects_out_of_range_witness :
  setRoomTemperature (Example.serving ["hall"]) 1 31
    (Example.constructed (Example.serving ["hall"])) =
  (Raise (ValueError
     "SetRoomTemperature : value of temperature must be between {} and {} OR {} (off)"),
   Example.constructed (Example.serving ["hall"])).
Proof.
  apply setRoomTemperature_rejects_out_of_range.
  - right. reflexivity.
  - vm_compute. discriminate.
Defined.

(** ** C10: the two network attributes *)

(** C10.  After the constructor and any number of refreshes,
    [wiserNetworkData] is still [None] and both [getWiserHubName] and
    [getMACAddress] fail with [AttributeError]; a refresh that succeeds puts
    the network document it fetched in [WiserNetworkData] and leaves
    [wiserNetworkData] at [None]. *)
Theorem wiserNetworkData_is_never_assigned (env : Collaborators) (recursionlimit : nat) (hubIP secret : string) (w0 : World) (k : nat) :
  let w := refreshes env recursionlimit k
             (snd (__init__ env recursionlimit hubIP secret w0)) in
  (wiserNetworkData (self w) = None
   ∧ getWiserHubName w = (Raise AttributeError, w)
   ∧ getMACAddress w = (Raise AttributeError, w))
  ∧ (∀ r1 r2 d v,
       respond env (sent w ++ [GET (hub_url (self w))]) = Responded r1 →
       status_ok r1 = true →
       resp_json env r1 = Some (Some d) →
       respond env (sent w ++ [GET (hub_url (self w)); GET (network_url (self w))])
         = Responded r2 →
       json_loads env (strip_non_printable (content r2)) = Some v →
       WiserNetworkData (self (snd (refreshData env recursionlimit w))) = v
       ∧ wiserNetworkData (self (snd (refreshData env recursionlimit w))) = None).
Proof.
  intros w.
  assert (Hnone : wiserNetworkData (self w) = None).
  { subst w. induction k as [| k IH].
    - unfold refreshes, __init__. simpl. unfold_bind. unfold modify_self.
      cbn [self]. 
      pose proof (keeps_refreshData_depth env recursionlimit) as Hk.
      unfold keeps in Hk. unfold refreshData.
      match goal with
      | |- context [refreshData_depth env recursionlimit ?x] =>
          specialize (Hk x); destruct (refreshData_depth env recursionlimit x) as [[e | a] w1]
      end; simpl in *; exact Hk.
    - unfold refreshes in *. simpl.
      unfold refreshData at 1. rewrite keeps_refreshData_depth. exact IH. }
  split.
  - split; [exact Hnone |].
    unfold getWiserHubName, getMACAddress. unfold_monad. rewrite Hnone. split; reflexivity.
  - intros r1 r2 d v Hr1 Hok Hjson Hr2 Hloads. split.
    + rewrite refreshData_unfold, (refreshData_body_fetched env _ w r1 d Hr1 Hok Hjson).
      cbv zeta. rewrite Hr2, Hloads. reflexivity.
    + unfold refreshData. rewrite keeps_refreshData_depth. exact Hnone.
Qed.

(** Witness for C10: a second refresh after the constructor. *)
Lemma wiserNetworkData_is_never_assigned_witness :
  WiserNetworkData
    (self (snd (refreshData (Example.serving ["hall"; "study"]) 0
                  (Example.constructed (Example.serving ["hall"; "study"])))))
    = Some Example.network
  ∧ wiserNetworkData
      (self (snd (refreshData (Example.serving ["hall"; "study"]) 0
                    (Example.constructed (Example.serving ["hall"; "study"])))))
    = None.
Proof.
  apply (proj2 (wiserNetworkData_is_never_assigned (Example.serving ["hall"; "study"]) 0
                  "192.168.1.10" "secret" Example.blank 0)
           {| status_code := 200; content := "study" |}
           {| status_code := 200; content := String (ascii_of_N 1) "network" |}
           (Example.document [Example.study]) (Some Example.network));
    vm_compute; reflexivity.
Defined.

(** * Further properties *)

(** ** Temperatures, both ways *)

(** X1.  For every hub value from -1000 up to 2000, encoding what the
    decoder gives for it gives the hub value back, both computed as the
    interpreter computes them, in binary64. *)
Theorem temperature_round_trip (t : Z) :
  -1000 <= t < 2000 →
  Binary64.__toWiserTemp (Float (Binary64.__fromWiserTemp t)) = Some t.
Proof.
  intros Ht. pose proof (hub_values_forall _ round_trips_checked t Ht) as H.
  unfold round_trips in H.
  destruct (Binary64.__toWiserTemp (Float (Binary64.__fromWiserTemp t))) as [n |];
    [| discriminate].
  apply Z.eqb_eq in H. congruence.
Qed.

(** Witness for X1: the hub value 215. *)
Lemma temperature_round_trip_witness :
  Binary64.__toWiserTemp (Float (Binary64.__fromWiserTemp 215)) = Some 215.
Proof. apply temperature_round_trip. lia. Defined.

(** ** Bytes that the parser never sees *)

(** X2.  What is left of the network document after the
    substitution holds only bytes between 0x20 and 0x7F; a body made of such
    bytes is left as it is, a second pass changes nothing, and the body never
    gets longer. *)
Theorem strip_non_printable_keeps_printable (s : string) :
  all_printable (strip_non_printable s) = true
  ∧ (all_printable s = true → strip_non_printable s = s)
  ∧ strip_non_printable (strip_non_printable s) = strip_non_printable s
  ∧ (String.length (strip_non_printable s) <= String.length s)%nat.
Proof.
  assert (H1 : ∀ s, all_printable (strip_non_printable s) = true).
  { clear s. induction s as [| c s IH]; simpl; [reflexivity |].
    destruct ((32 <=? N_of_ascii c) && (N_of_ascii c <=? 127))%N eqn:E; [| exact IH].
    simpl. rewrite E, IH. reflexivity. }
  assert (H2 : ∀ s, all_printable s = true → strip_non_printable s = s).
  { clear s. induction s as [| c s IH]; simpl; [reflexivity |].
    intros H. apply andb_true_iff in H as [E H]. rewrite E, (IH H). reflexivity. }
  split; [apply H1 |]. split; [apply H2 |]. split; [apply H2, H1 |].
  induction s as [| c s IH]; simpl; [lia |].
  destruct ((32 <=? N_of_ascii c) && (N_of_ascii c <=? 127))%N; simpl; lia.
Qed.

(** Witness for X2: an empty JSON object. *)
Lemma strip_non_printable_keeps_printable_witness :
  strip_non_printable "{}" = "{}"%string.
Proof.
  apply (proj1 (proj2 (strip_non_printable_keeps_printable "{}"))).
  reflexivity.
Defined.

(** ** Title case *)

Lemma lower_ascii_idem (c : ascii) : lower_ascii (lower_ascii c) = lower_ascii c.
Proof. destruct c as [[] [] [] [] [] [] [] []]; reflexivity. Qed.

Lemma lower_upper_ascii (c : ascii) : lower_ascii (upper_ascii c) = lower_ascii c.
Proof. destruct c as [[] [] [] [] [] [] [] []]; reflexivity. Qed.

Lemma upper_lower_ascii (c : ascii) : upper_ascii (lower_ascii c) = upper_ascii c.
Proof. destruct c as [[] [] [] [] [] [] [] []]; reflexivity. Qed.

Lemma is_cased_lower_ascii (c : ascii) : is_cased (lower_ascii c) = is_cased c.
Proof. destruct c as [[] [] [] [] [] [] [] []]; reflexivity. Qed.

Lemma lower_ascii_uncased (c : ascii) : is_cased c = false → lower_ascii c = c.
Proof. destruct c as [[] [] [] [] [] [] [] []]; (reflexivity || discriminate). Qed.

Lemma lower_title_from (b : bool) (s : string) : lower (title_from b s) = lower s.
Proof.
  revert b. induction s as [| c s IH]; intros b; simpl; [reflexivity |].
  destruct (is_cased c) eqn:E; simpl; rewrite IH; [| reflexivity].
  destruct b; [rewrite lower_ascii_idem | rewrite lower_upper_ascii]; reflexivity.
Qed.

Lemma title_from_lower (b : bool) (s : string) : title_from b (lower s) = title_from b s.
Proof.
  revert b. induction s as [| c s IH]; intros b; simpl; [reflexivity |].
  rewrite is_cased_lower_ascii. destruct (is_cased c) eqn:E; rewrite IH.
  - destruct b; [rewrite lower_ascii_idem | rewrite upper_lower_ascii]; reflexivity.
  - rewrite (lower_ascii_uncased c E). reflexivity.
Qed.

Lemma title_eq_iff (s word : string) :
  title (lower word) = word → (title s = word ↔ lower s = lower word).
Proof.
  intros Hword. split; intros H.
  - rewrite <- H. unfold title. rewrite lower_title_from. reflexivity.
  - unfold title in *. rewrite <- (title_from_lower false s), H. exact Hword.
Qed.

(** ** What a refresh never undoes *)

Section Respects.
Context (R : wiserHub → wiserHub → Prop) `{!Reflexive R} `{!Transitive R}.

Lemma respects_ret {A} (a : A) : respects R (mret a).
Proof. intros w. simpl. reflexivity. Qed.

Lemma respects_raise {A} (e : Exception) : respects R (raise e : M A).
Proof. intros w. simpl. reflexivity. Qed.

Lemma respects_get_self : respects R get_self.
Proof. intros w. simpl. reflexivity. Qed.

Lemma respects_bind {A B} (m : M A) (f : A → M B) :
  respects R m → (∀ a, respects R (f a)) → respects R (m ≫= f).
Proof.
  intros Hm Hf w. unfold mbind, M_bind. specialize (Hm w).
  destruct (m w) as [[e | a] w']; simpl in *; [exact Hm |].
  transitivity (self w'); [exact Hm | apply Hf].
Qed.

Lemma respects_try_except {A} (body : M A) (handler : Exception → option (M A)) :
  respects R body → (∀ e h, handler e = Some h → respects R h) →
  respects R (try_except body handler).
Proof.
  intros Hb Hh w. unfold try_except. specialize (Hb w).
  destruct (body w) as [[e | a] w']; simpl in *; [| exact Hb].
  destruct (handler e) as [h |] eqn:E; simpl; [| exact Hb].
  transitivity (self w'); [exact Hb | apply (Hh e h E)].
Qed.

Lemma respects_for_each {A} (l : list A) (body : A → M unit) :
  (∀ a, respects R (body a)) → respects R (for_each l body).
Proof.
  intros Hb. induction l as [| a l IH]; simpl.
  - apply respects_ret.
  - apply respects_bind; [apply Hb | intros _; exact IH].
Qed.

Lemma respects_modify_self (f : wiserHub → wiserHub) :
  (∀ o, R o (f o)) → respects R (modify_self f).
Proof. intros Hf w. simpl. apply Hf. Qed.

Context (env : Collaborators).

Lemma respects_requests_get (url : Url) : respects R (requests_get env url).
Proof. intros w. unfold requests_get. destruct (respond env _); simpl; reflexivity. Qed.

Lemma respects_dict_get {A} (d : option HubData.t) (k : HubData.t → A) :
  respects R (dict_get d k).
Proof. destruct d; [apply respects_ret | apply respects_raise]. Qed.

Lemma respects_checkHubData_in (refresh : M (option HubData.t)) :
  respects R refresh → respects R (checkHubData_in refresh).
Proof.
  intros H. unfold checkHubData_in.
  apply respects_bind; [apply respects_get_self | intros o].
  apply respects_bind.
  - destruct (wiserHubData o); [apply respects_ret |].
    apply respects_bind; [exact H | intros; apply respects_ret].
  - intros _. apply respects_bind; [apply respects_get_self | intros o'].
    destruct (wiserHubData o'); [apply respects_ret | apply respects_raise].
Qed.

Lemma respects_getRooms_in (refresh : M (option HubData.t)) :
  respects R refresh → respects R (getRooms_in refresh).
Proof.
  intros H. unfold getRooms_in.
  apply respects_bind; [apply respects_checkHubData_in; exact H | intros _].
  apply respects_bind; [apply respects_get_self | intros o]. apply respects_dict_get.
Qed.

(** The three assignments of a refresh. *)
Context (Hdata : ∀ v o, R o (set_wiserHubData v o)).
Context (Hnetwork : ∀ v o, R o (set_WiserNetworkData v o)).
Context (Hindex : ∀ k v o, R o (setitem_device2roomMap k v o)).

Lemma respects_index_room (room : Room.t) : respects R (index_room room).
Proof.
  unfold index_room. apply respects_bind.
  - destruct (Room.RoomStatId room);
      [apply respects_modify_self; intros; apply Hindex | apply respects_ret].
  - intros _. destruct (Room.SmartValveIds room); [| apply respects_ret].
    apply respects_for_each. intros k. apply respects_modify_self. intros; apply Hindex.
Qed.

Lemma respects_refreshData_body (refresh : M (option HubData.t)) :
  respects R refresh → respects R (refreshData_body env refresh).
Proof.
  intros H. unfold refreshData_body.
  apply respects_bind;
    [| intros _; apply respects_bind; [apply respects_get_self | intros; apply respects_ret]].
  apply respects_try_except.
  - apply respects_bind; [apply respects_get_self | intros o].
    apply respects_bind; [apply respects_requests_get | intros resp].
    apply respects_bind.
    { unfold raise_for_status. destruct (_ && _); [apply respects_raise | apply respects_ret]. }
    intros _. apply respects_bind.
    { unfold Response_json.
      destruct (resp_json env resp); [apply respects_ret | apply respects_raise]. }
    intros data. apply respects_bind;
      [apply respects_modify_self; intros; apply Hdata | intros _].
    apply respects_bind; [apply respects_getRooms_in; exact H | intros rooms].
    apply respects_bind.
    { destruct rooms; [| apply respects_ret].
      apply respects_bind; [apply respects_getRooms_in; exact H | intros rooms'].
      destruct rooms'; [| apply respects_raise].
      apply respects_for_each. intros room. apply respects_index_room. }
    intros _. apply respects_bind; [apply respects_get_self | intros o'].
    apply respects_bind; [apply respects_requests_get | intros resp'].
    destruct (json_loads env _);
      [apply respects_modify_self; intros; apply Hnetwork | apply respects_raise].
  - intros e h He. destruct e; inversion He; subst; clear He.
    + apply respects_raise.
    + apply respects_bind; [apply respects_get_self | intros o].
      apply respects_bind; [unfold getattr_status_code; apply respects_raise | intros status].
      destruct (status =? 401); [apply respects_raise |].
      destruct (status =? 404); apply respects_raise.
    + apply respects_ret.
Qed.

Lemma respects_refreshData_depth (depth : nat) : respects R (refreshData_depth env depth).
Proof.
  induction depth as [| depth IH]; simpl; apply respects_refreshData_body.
  - apply respects_raise.
  - exact IH.
Qed.

End Respects.

Lemma settled_refl : Reflexive settled.
Proof. intros o. repeat split. intros k H. exact H. Qed.

Lemma settled_trans : Transitive settled.
Proof.
  intros o1 o2 o3 (H1 & Hip1 & Hs1) (H2 & Hip2 & Hs2). repeat split.
  - intros k H. apply H2, H1, H.
  - congruence.
  - congruence.
Qed.

(** X3.  When the fetch of the state document times out, is answered
    with a 4xx or 5xx status, or carries a body that is not JSON, the refresh
    ends with an error ([WiserHubTimeoutException], [AttributeError] and
    [JSONDecodeError] in turn) and the object is as it was before: the cached
    document, the index and the network attributes are untouched and one
    request was sent. *)
Theorem refreshData_failed_fetch_keeps_object (env : Collaborators) (recursionlimit : nat)
    (w : World) :
  (respond env (sent w ++ [GET (hub_url (self w))]) = TimedOut →
   refreshData env recursionlimit w =
     (Raise (WiserHubTimeoutException "The connection timed out."),
      after [GET (hub_url (self w))] w))
  ∧ (∀ r, respond env (sent w ++ [GET (hub_url (self w))]) = Responded r →
          status_ok r = false →
          refreshData env recursionlimit w =
            (Raise AttributeError, after [GET (hub_url (self w))] w))
  ∧ (∀ r, respond env (sent w ++ [GET (hub_url (self w))]) = Responded r →
          status_ok r = true →
          resp_json env r = None →
          refreshData env recursionlimit w =
            (Raise JSONDecodeError, after [GET (hub_url (self w))] w)).
Proof.
  rewrite refreshData_unfold. repeat split.
  - apply refreshData_body_timed_out.
  - intros r Hr Hst. apply (refreshData_body_http_error env _ w r Hr Hst).
  - intros r Hr Hst Hjson. apply (refreshData_body_invalid_json env _ w r Hr Hst Hjson).
Qed.

(** Witness for X3: a hub answering 401 to a facade that holds a document. *)
Lemma refreshData_failed_fetch_keeps_object_witness :
  refreshData Example.unauthorized 0 (Example.constructed (Example.serving ["hall"])) =
  (Raise AttributeError,
   after [GET (hub_url (self (Example.constructed (Example.serving ["hall"]))))]
     (Example.constructed (Example.serving ["hall"]))).
Proof.
  apply (proj1 (proj2 (refreshData_failed_fetch_keeps_object Example.unauthorized 0
                         (Example.constructed (Example.serving ["hall"]))))
           {| status_code := 401; content := "" |});
    vm_compute; reflexivity.
Defined.

(** X4.  A refresh is not all or nothing.  When the state document was
    fetched and parsed and the fetch of the network document then times out
    or gives a body that does not parse, the call ends with an error, and yet
    the new document is cached and the index holds its rooms;
    [WiserNetworkData] is as before. *)
Theorem refreshData_network_failure_keeps_new_document (env : Collaborators)
    (recursionlimit : nat) (w : World) (r1 : Response) (d : HubData.t) :
  respond env (sent w ++ [GET (hub_url (self w))]) = Responded r1 →
  status_ok r1 = true →
  resp_json env r1 = Some (Some d) →
  (respond env (sent w ++ [GET (hub_url (self w)); GET (network_url (self w))]) = TimedOut
   ∨ ∃ r2, respond env (sent w ++ [GET (hub_url (self w)); GET (network_url (self w))])
             = Responded r2
           ∧ json_loads env (strip_non_printable (content r2)) = None) →
  let w' := snd (refreshData env recursionlimit w) in
  (∃ e, fst (refreshData env recursionlimit w) = Raise e)
  ∧ wiserHubData (self w') = Some d
  ∧ device2roomMap (self w') =
      add_rooms (device2roomMap (self w)) (default [] (HubData.Room d))
  ∧ WiserNetworkData (self w') = WiserNetworkData (self w).
Proof.
  intros Hr1 Hok Hjson Hfail w'. subst w'.
  rewrite refreshData_unfold, (refreshData_body_fetched env _ w r1 d Hr1 Hok Hjson).
  cbv zeta. destruct Hfail as [H | (r2 & H & Hloads)]; rewrite H; [| rewrite Hloads];
    (split; [eexists; reflexivity | repeat split]).
Qed.

(** Witness for X4: the network body does not parse. *)
Lemma refreshData_network_failure_keeps_new_document_witness :
  wiserHubData
    (self (snd (refreshData
                  {| respond := respond (Example.serving ["hall"]);
                     resp_json := Example.parse;
                     json_loads := λ _, None |} 0 Example.blank)))
  = Some (Example.document [Example.hall]).
Proof.
  apply (refreshData_network_failure_keeps_new_document
           {| respond := respond (Example.serving ["hall"]);
              resp_json := Example.parse;
              json_loads := λ _, None |} 0 Example.blank
           {| status_code := 200; content := "hall" |} (Example.document [Example.hall]));
    try (vm_compute; reflexivity).
  right. exists {| status_code := 200; content := String (ascii_of_N 1) "network" |}.
  split; vm_compute; reflexivity.
Defined.

(** X7.  Whenever [checkHubData] returns, a document is cached; so
    [getHubData] returns a document or raises, and never returns [None]. *)
Theorem getHubData_never_returns_None (env : Collaborators) (recursionlimit : nat)
    (w w' : World) :
  (checkHubData env recursionlimit w = (Return tt, w') →
   ∃ d, wiserHubData (self w') = Some d)
  ∧ (∀ v, getHubData env recursionlimit w = (Return v, w') →
          v = wiserHubData (self w') ∧ ∃ d, v = Some d).
Proof.
  assert (Hcheck : ∀ w w', checkHubData env recursionlimit w = (Return tt, w') →
                           ∃ d, wiserHubData (self w') = Some d).
  { clear w w'. intros w w'. unfold checkHubData, checkHubData_in.
    cbv beta iota zeta delta [mbind M_bind mret M_ret raise get_self].
    destruct (wiserHubData (self w)) as [d |] eqn:Hd.
    - rewrite Hd. intros H. inversion H; subst. eauto.
    - destruct (refreshData env recursionlimit w) as [[e | a] w1]; [discriminate |].
      destruct (wiserHubData (self w1)) as [d |] eqn:Hd1; [| discriminate].
      intros H. inversion H; subst. eauto. }
  split; [apply Hcheck |].
  intros v. unfold getHubData.
  cbv beta iota zeta delta [mbind M_bind mret M_ret get_self].
  destruct (checkHubData env recursionlimit w) as [[e | []] w1] eqn:Hc; [discriminate |].
  intros H. inversion H; subst. split; [reflexivity |]. apply (Hcheck w w' Hc).
Qed.

(** Witness for X7: the check on a facade that holds a document. *)
Lemma getHubData_never_returns_None_witness :
  ∃ d, wiserHubData (self (Example.constructed (Example.serving ["hall"]))) = Some d.
Proof.
  apply (proj1 (getHubData_never_returns_None (Example.serving ["hall"]) 0
                  (Example.constructed (Example.serving ["hall"]))
                  (Example.constructed (Example.serving ["hall"])))).
  vm_compute. reflexivity.
Defined.

Lemma getSmartPlugs_cached (env : Collaborators) (recursionlimit : nat) (w : World)
    (d : HubData.t) :
  wiserHubData (self w) = Some d →
  getSmartPlugs env recursionlimit w = (Return (HubData.SmartPlug d), w).
Proof.
  intros H. unfold getSmartPlugs. unfold_bind.
  rewrite (checkHubData_cached _ _ _ _ H), (getHubData_cached _ _ _ _ H). reflexivity.
Qed.

Lemma getDevices_cached (env : Collaborators) (recursionlimit : nat) (w : World)
    (d : HubData.t) :
  wiserHubData (self w) = Some d →
  getDevices env recursionlimit w = (Return (HubData.Device d), w).
Proof.
  intros H. unfold getDevices. unfold_bind.
  rewrite (checkHubData_cached _ _ _ _ H). unfold_monad. rewrite H. reflexivity.
Qed.

(** X8.  With a document cached, the read accessors send no request and
    change nothing: the section accessors return the section as the document
    has it, and the accessors by id, and [getHeatingRelayStatus], leave the
    world as it is whether they return or raise. *)
Theorem reads_leave_cached_world (env : Collaborators) (recursionlimit : nat) (w : World)
    (d : HubData.t) (id : Z) :
  wiserHubData (self w) = Some d →
  getHubData env recursionlimit w = (Return (Some d), w)
  ∧ getRooms env recursionlimit w = (Return (HubData.Room d), w)
  ∧ getDevices env recursionlimit w = (Return (HubData.Device d), w)
  ∧ getHeatingChannels env recursionlimit w = (Return (HubData.HeatingChannel d), w)
  ∧ getSmartPlugs env recursionlimit w = (Return (HubData.SmartPlug d), w)
  ∧ snd (getRoom env recursionlimit id w) = w
  ∧ snd (getDevice env recursionlimit id w) = w
  ∧ snd (getRoomStatData env recursionlimit id w) = w
  ∧ snd (getSmartPlug env recursionlimit id w) = w
  ∧ snd (getSmartPlugState env recursionlimit id w) = w
  ∧ snd (getSmartPlugMode env recursionlimit id w) = w
  ∧ snd (getHeatingRelayStatus env recursionlimit w) = w.
Proof.
  intros H.
  split; [apply getHubData_cached; exact H |].
  split; [apply getRooms_in_cached; exact H |].
  split; [apply getDevices_cached; exact H |].
  split; [apply getHeatingChannels_cached; exact H |].
  split; [apply getSmartPlugs_cached; exact H |].
  split.
  { rewrite (getRoom_cached _ _ _ _ _ H).
    destruct (HubData.Room d) as [rooms |]; [| reflexivity].
    destruct (find _ rooms); reflexivity. }
  split.
  { rewrite (getDevice_cached _ _ _ _ _ H).
    destruct (HubData.Device d) as [devices |]; [| reflexivity].
    destruct (find _ devices); reflexivity. }
  split.
  { rewrite (getRoomStatData_cached _ _ _ _ _ H).
    destruct (HubData.RoomStat d) as [| | roomStats]; [reflexivity | reflexivity |].
    destruct (find _ roomStats); reflexivity. }
  split.
  { unfold getSmartPlug. unfold_bind. rewrite (scan_smart_plugs_cached _ _ _ _ _ H).
    destruct (_ ≫= _); reflexivity. }
  split.
  { unfold getSmartPlugState. unfold_bind. rewrite (scan_smart_plugs_cached _ _ _ _ _ H).
    destruct (_ ≫= _); reflexivity. }
  split.
  { unfold getSmartPlugMode. unfold_bind. rewrite (scan_smart_plugs_cached _ _ _ _ _ H).
    destruct (_ ≫= _); reflexivity. }
  unfold getHeatingRelayStatus. unfold_bind.
  rewrite (getHeatingChannels_cached _ _ _ _ H).
  destruct (HubData.HeatingChannel d); reflexivity.
Qed.

(** Witness for X8: the rooms of the cached document. *)
Lemma reads_leave_cached_world_witness :
  getRooms (Example.serving ["hall"]) 0 (Example.constructed (Example.serving ["hall"])) =
  (Return (Some [Example.hall]), Example.constructed (Example.serving ["hall"])).
Proof.
  apply (reads_leave_cached_world (Example.serving ["hall"]) 0
           (Example.constructed (Example.serving ["hall"]))
           (Example.document [Example.hall]) 1).
  vm_compute. reflexivity.
Defined.

(** X9.  The constructor does not fail when the hub cannot be
    reached: it returns an object with no document and an empty index, after
    one request.  The first accessor then tries again, and fails with
    [WiserHubDataNull] if the hub is still out of reach. *)
Theorem init_survives_unreachable_hub (env : Collaborators) (recursionlimit : nat)
    (address secret : string) (w0 : World) :
  let fetch := GET (format WISERHUBURL [ArgStr address]) in
  let constructed :=
    {| self := {| wiserHubData := None; wiserNetworkData := None;
                  WiserNetworkData := None; hubIP := address; hubSecret := secret;
                  device2roomMap := ∅ |};
       sent := sent w0 ++ [fetch] |} in
  respond env (sent w0 ++ [fetch]) = ConnectionFailed →
  __init__ env recursionlimit address secret w0 = (Return tt, constructed)
  ∧ (respond env (sent w0 ++ [fetch; fetch]) = ConnectionFailed →
     fst (getRooms env recursionlimit constructed) =
       Raise (WiserHubDataNull "Hub data null even after refresh, aborting request")).
Proof.
  intros fetch constructed H. split.
  - unfold __init__. unfold_bind. unfold modify_self.
    rewrite refreshData_unfold.
    rewrite refreshData_body_connection_failed; [reflexivity |]. exact H.
  - intros H2. unfold getRooms, getRooms_in. unfold_bind.
    fold (checkHubData env recursionlimit).
    rewrite checkHubData_unreachable; [reflexivity | reflexivity |].
    subst constructed. cbn [self sent hub_url hubIP].
    rewrite <- app_assoc. exact H2.
Qed.

(** Witness for X9: a hub that is unreachable from the start. *)
Lemma init_survives_unreachable_hub_witness :
  __init__ (Example.serving []) 0 "192.168.1.10" "secret" Example.blank =
  (Return tt,
   {| self := {| wiserHubData := None; wiserNetworkData := None;
                 WiserNetworkData := None; hubIP := "192.168.1.10"; hubSecret := "secret";
                 device2roomMap := ∅ |};
      sent := sent Example.blank ++ [GET (format WISERHUBURL [ArgStr "192.168.1.10"])] |}).
Proof.
  apply (init_survives_unreachable_hub (Example.serving []) 0 "192.168.1.10" "secret"
           Example.blank).
  vm_compute. reflexivity.
Defined.

Lemma getDeviceRoom_cached (env : Collaborators) (recursionlimit : nat) (deviceId : Z)
    (w : World) (d : HubData.t) :
  wiserHubData (self w) = Some d →
  size (device2roomMap (self w)) ≠ 0%nat →
  getDeviceRoom env recursionlimit deviceId w =
    match device2roomMap (self w) !! deviceId with
    | Some ref => (Return ref, w)
    | None => (Raise KeyError, w)
    end.
Proof.
  intros Hd Hsize. unfold getDeviceRoom. unfold_bind.
  rewrite (checkHubData_cached _ _ _ _ Hd).
  cbv beta iota zeta delta [mbind M_bind mret M_ret raise get_self].
  destruct (decide (size (device2roomMap (self w)) = 0%nat)) as [E | _]; [contradiction |].
  destruct (device2roomMap (self w) !! deviceId); reflexivity.
Qed.

Lemma size_nonzero_lookup (m : gmap Z RoomRef) (k : Z) :
  is_Some (m !! k) → size m ≠ 0%nat.
Proof.
  intros [v H] Hsize. apply map_size_empty_iff in Hsize. subst m.
  rewrite lookup_empty in H. discriminate.
Qed.

(** X10.  After a successful refresh, [getDeviceRoom] finds every
    device that a room of the fetched document lists as its room stat or
    among its smart valves: it returns the id and name of a room of that
    document listing the device, and sends nothing. *)
Theorem getDeviceRoom_after_refresh (env : Collaborators) (recursionlimit : nat) (w : World)
    (r1 r2 : Response) (d : HubData.t) (v : option NetworkData.t) (room : Room.t) (k : Z) :
  respond env (sent w ++ [GET (hub_url (self w))]) = Responded r1 →
  status_ok r1 = true →
  resp_json env r1 = Some (Some d) →
  respond env (sent w ++ [GET (hub_url (self w)); GET (network_url (self w))])
    = Responded r2 →
  json_loads env (strip_non_printable (content r2)) = Some v →
  room ∈ default [] (HubData.Room d) →
  k ∈ room_devices room →
  let w' := snd (refreshData env recursionlimit w) in
  ∃ room', room' ∈ default [] (HubData.Room d) ∧ k ∈ room_devices room'
           ∧ getDeviceRoom env recursionlimit k w' = (Return (room_ref room'), w').
Proof.
  intros Hr1 Hok Hjson Hr2 Hloads Hroom Hk w'. subst w'.
  rewrite refreshData_unfold, (refreshData_body_fetched env _ w r1 d Hr1 Hok Hjson).
  cbv zeta. rewrite Hr2, Hloads. cbn [snd].
  set (w' := {| self := refreshed d v (self w); sent := _ |}).
  pose proof (add_rooms_lookup_listed _ (device2roomMap (self w)) k room Hroom Hk) as [ref Href].
  assert (Hlisted : ∃ room', room' ∈ default [] (HubData.Room d) ∧ k ∈ room_devices room'
                             ∧ ref = room_ref room').
  { rewrite add_rooms_union in Href. apply lookup_union_Some_raw in Href.
    destruct Href as [Href | [Hnone _]].
    - apply add_rooms_lookup_Some in Href.
      destruct Href as [Href | Href]; [| exact Href].
      rewrite lookup_empty in Href. discriminate.
    - exfalso.
      pose proof (add_rooms_lookup_listed _ ∅ k room Hroom Hk) as [x Hx]. congruence. }
  destruct Hlisted as (room' & Hin & Hk' & ->).
  exists room'. split; [exact Hin |]. split; [exact Hk' |].
  rewrite (getDeviceRoom_cached env recursionlimit k w' d eq_refl).
  - subst w'. cbn [self refreshed device2roomMap]. rewrite Href. reflexivity.
  - apply (size_nonzero_lookup _ k). subst w'. cbn [self refreshed device2roomMap]. eauto.
Qed.

(** Witness for X10: valve 7 of the hall. *)
Lemma getDeviceRoom_after_refresh_witness :
  ∃ room', room' ∈ default [] (HubData.Room (Example.document [Example.hall]))
           ∧ 7 ∈ room_devices room'
           ∧ getDeviceRoom (Example.serving ["hall"]) 0 7
               (snd (refreshData (Example.serving ["hall"]) 0 Example.blank)) =
             (Return (room_ref room'),
              snd (refreshData (Example.serving ["hall"]) 0 Example.blank)).
Proof.
  apply (getDeviceRoom_after_refresh (Example.serving ["hall"]) 0 Example.blank
           {| status_code := 200; content := "hall" |}
           {| status_code := 200; content := String (ascii_of_N 1) "network" |}
           (Example.document [Example.hall]) (Some Example.network) Example.hall 7);
    try (vm_compute; reflexivity).
  - apply list_elem_of_here.
  - apply list_elem_of_further, list_elem_of_here.
Defined.



(** X6.  A refresh, however it ends, removes no key from the index
    and leaves the hub address and the secret as they are. *)
Theorem refreshData_never_shrinks_index (env : Collaborators) (recursionlimit : nat)
    (w : World) :
  let w' := snd (refreshData env recursionlimit w) in
  (∀ k, is_Some (device2roomMap (self w) !! k) → is_Some (device2roomMap (self w') !! k))
  ∧ hubIP (self w') = hubIP (self w)
  ∧ hubSecret (self w') = hubSecret (self w).
Proof.
  assert (H : respects settled (refreshData_depth env recursionlimit)).
  { apply (@respects_refreshData_depth settled settled_refl settled_trans env).
    - intros v o. repeat split. intros k H. exact H.
    - intros v o. repeat split. intros k H. exact H.
    - intros k v o. repeat split. intros k' H. simpl.
      destruct (decide (k = k')) as [-> | Hne].
      + rewrite lookup_insert_eq. eauto.
      + rewrite lookup_insert_ne by exact Hne. exact H. }
  exact (H w).
Qed.

(** Witness for X6: device 99 after a refresh whose document does not list it. *)
Lemma refreshData_never_shrinks_index_witness :
  is_Some
    (device2roomMap
       (self (snd (refreshData (Example.serving ["hall"; "study"]) 0
                     (Example.constructed (Example.serving ["hall"; "study"])))))
     !! 99).
Proof.
  apply (proj1 (refreshData_never_shrinks_index (Example.serving ["hall"; "study"]) 0
                  (Example.constructed (Example.serving ["hall"; "study"]))) 99).
  exists {| roomId := Some 1; roomName := Some "Hall" |}. vm_compute. reflexivity.
Defined.

(** X5.  When the hub answers the state request with the JSON value
    [null], the refresh stores [None], and [getRooms] inside the refresh
    starts another fetch.  If that one finds the hub unreachable, the refresh
    ends with [WiserHubDataNull] after two requests and no document is cached
    any more, whatever was cached before.  (One re-entry is within the
    interpreter's bound.) *)
Theorem refreshData_null_body_drops_document (env : Collaborators) (depth : nat) (w : World)
    (r : Response) :
  respond env (sent w ++ [GET (hub_url (self w))]) = Responded r →
  status_ok r = true →
  resp_json env r = Some None →
  respond env (sent w ++ [GET (hub_url (self w)); GET (hub_url (self w))])
    = ConnectionFailed →
  let w' := snd (refreshData env (S depth) w) in
  fst (refreshData env (S depth) w) =
    Raise (WiserHubDataNull "Hub data null even after refresh, aborting request")
  ∧ wiserHubData (self w') = None
  ∧ sent w' = sent w ++ [GET (hub_url (self w)); GET (hub_url (self w))].
Proof.
  intros Hr Hok Hjson H2 w'. subst w'. unfold refreshData. simpl refreshData_depth.
  rewrite (refreshData_body_null_then_unreachable env depth w r Hr Hok Hjson H2).
  repeat split.
Qed.

(** Witness for X5: the constructor got a document, the next answer is null. *)
Lemma refreshData_null_body_drops_document_witness :
  wiserHubData
    (self (snd (refreshData (Example.serving ["hall"; "null"]) 1
                  (Example.constructed (Example.serving ["hall"; "null"])))))
  = None.
Proof.
  apply (refreshData_null_body_drops_document (Example.serving ["hall"; "null"]) 0
           (Example.constructed (Example.serving ["hall"; "null"]))
           {| status_code := 200; content := "null" |});
    vm_compute; reflexivity.
Defined.

(** ** One PATCH *)

Lemma patch_once_run (env : Collaborators) (url : Url) (json : Json) (failure : Response → Exception)
    (w : World) :
  (response ← requests_patch env url json;
   if negb (status_code response =? 200)
   then raise (failure response)
   else mret tt) w =
  patch_once env url json failure w.
Proof.
  unfold patch_once, after.
  cbv beta iota zeta delta [mbind M_bind mret M_ret raise requests_patch].
  destruct (respond env _) as [| | r]; try reflexivity.
  destruct (status_code r =? 200); reflexivity.
Qed.

Lemma patch_once_world (env : Collaborators) (url : Url) (json : Json)
    (failure : Response → Exception) (w : World) :
  snd (patch_once env url json failure w) = after [PATCH url json] w.
Proof.
  unfold patch_once. destruct (respond env _) as [| | r]; try reflexivity.
  destruct (status_code r =? 200); reflexivity.
Qed.

Lemma after_nil (w : World) : after [] w = w.
Proof. unfold after. rewrite app_nil_r. destruct w; reflexivity. Qed.


Lemma checkTempRange_rejects (t : Q) :
  (t < 5 ∨ 30 < t)%Q → ¬ (t == -20)%Q → __checkTempRange t = false.
Proof.
  intros Hout Hoff. apply not_true_is_false. intros E.
  apply checkTempRange_spec in E. unfold TEMP_OFF, TEMP_MINIMUM, TEMP_MAXIMUM in E.
  destruct E as [E | [Hlo Hhi]]; [exact (Hoff E) |].
  destruct Hout as [H | H]; lra.
Qed.



(** X13.  A mode that is none of auto, boost, manual and off, whatever
    its case, makes [setRoomMode] raise [ValueError] with the world left as it
    is: nothing is sent. *)
Theorem setRoomMode_rejects_unknown_mode (env : Collaborators) (recursionlimit : nat)
    (roomId : Z) (mode : string) (boost_temp : Q) (boost_temp_time : Z) (w : World) :
  lower mode ≠ "auto" → lower mode ≠ "boost" → lower mode ≠ "manual" → lower mode ≠ "off" →
  setRoomMode env recursionlimit roomId mode boost_temp boost_temp_time w =
    (Raise (ValueError
       "Error setting setting room mode, received  {} but should be auto,boost,off or manual "),
     w).
Proof.
  intros Hauto Hboost Hmanual Hoff. unfold setRoomMode.
  apply String.eqb_neq in Hauto, Hboost, Hmanual, Hoff.
  rewrite Hauto, Hboost, Hmanual, Hoff. reflexivity.
Qed.

(** Witness for X13: the mode Eco. *)
Lemma setRoomMode_rejects_unknown_mode_witness :
  setRoomMode (Example.serving ["hall"]) 0 1 "Eco" 20 30
    (Example.constructed (Example.serving ["hall"])) =
  (Raise (ValueError
     "Error setting setting room mode, received  {} but should be auto,boost,off or manual "),
   Example.constructed (Example.serving ["hall"])).
Proof.
  apply setRoomMode_rejects_unknown_mode; vm_compute; discriminate.
Defined.

(** X14.  In the modes auto and off, [setRoomMode] returns
    exactly when the cancellation and the PATCH of the mode are both answered
    with 200.  When the cancellation is accepted and the second PATCH is not,
    the error is the one of the mode, not the one of the cancellation, and
    both requests are in the log. *)
Theorem setRoomMode_succeeds_iff_both_accepted (env : Collaborators) (recursionlimit : nat)
    (roomId : Z) (mode : string) (boost_temp : Q) (boost_temp_time : Z) (w : World)
    (patchData : Json) :
  (lower mode = "auto" ∧ patchData = auto_patch)
  ∨ (lower mode = "off" ∧ patchData = manual_patch (-200)) →
  let cancel := PATCH (room_url (self w) roomId) cancelBoostPostData in
  let request := PATCH (room_url (self w) roomId) patchData in
  let run := setRoomMode env recursionlimit roomId mode boost_temp boost_temp_time w in
  (fst run = Return tt ↔
   ∃ r r', respond env (sent w ++ [cancel]) = Responded r ∧ status_code r = 200
           ∧ respond env (sent w ++ [cancel; request]) = Responded r'
           ∧ status_code r' = 200)
  ∧ (∀ r r', respond env (sent w ++ [cancel]) = Responded r → status_code r = 200 →
             respond env (sent w ++ [cancel; request]) = Responded r' →
             status_code r' ≠ 200 →
             run = (Raise (WiserRESTException "Error setting mode to {}, error {} "),
                    after [cancel; request] w)).
Proof.
  intros Hcase cancel request run. subst cancel request run.
  assert (Hrun : setRoomMode env recursionlimit roomId mode boost_temp boost_temp_time w =
                 cancel_then_patch env roomId patchData w).
  { destruct Hcase as [[Hm ->] | [Hm ->]].
    - apply setRoomMode_auto. exact Hm.
    - apply setRoomMode_off. exact Hm. }
  rewrite Hrun. unfold cancel_then_patch. split.
  - split.
    + destruct (respond env (sent w ++ [PATCH _ cancelBoostPostData])) as [| | r] eqn:E1;
        [discriminate | discriminate |].
      destruct (status_code r =? 200) eqn:S1; [| discriminate].
      destruct (respond env (sent w ++ [_; _])) as [| | r'] eqn:E2;
        [discriminate | discriminate |].
      destruct (status_code r' =? 200) eqn:S2; [| discriminate].
      intros _. exists r, r'. apply Z.eqb_eq in S1, S2. done.
    + intros (r & r' & E1 & S1 & E2 & S2). rewrite E1, S1. cbn [Z.eqb Pos.eqb].
      rewrite E2, S2. reflexivity.
  - intros r r' E1 S1 E2 S2. rewrite E1, S1. cbn [Z.eqb Pos.eqb]. rewrite E2.
    apply Z.eqb_neq in S2. rewrite S2. reflexivity.
Qed.

(** Witness for X14: auto, written in capitals, on a hub that accepts every PATCH. *)
Lemma setRoomMode_succeeds_iff_both_accepted_witness :
  fst (setRoomMode (Example.serving ["hall"]) 0 1 "AUTO" 20 30
         (Example.constructed (Example.serving ["hall"]))) = Return tt.
Proof.
  apply (proj1 (setRoomMode_succeeds_iff_both_accepted (Example.serving ["hall"]) 0 1 "AUTO"
                  20 30 (Example.constructed (Example.serving ["hall"])) auto_patch
                  (or_introl (conj eq_refl eq_refl)))).
  exists {| status_code := 200; content := "" |}, {| status_code := 200; content := "" |}.
  repeat split; vm_compute; reflexivity.
Defined.

Lemma setRoomMode_manual_room_error (env : Collaborators) (recursionlimit : nat)
    (roomId : Z) (mode : string) (boost_temp : Q) (boost_temp_time : Z) (w w' : World)
    (e : Exception) :
  lower mode = "manual" →
  getRoom env recursionlimit roomId w = (Raise e, w') →
  setRoomMode env recursionlimit roomId mode boost_temp boost_temp_time w = (Raise e, w').
Proof.
  intros Hm He. unfold setRoomMode. rewrite Hm.
  change (String.eqb "manual" "auto") with false.
  change (String.eqb "manual" "boost") with false.
  change (String.eqb "manual" "manual") with true.
  cbv beta iota.
  unfold mbind at 1. unfold M_bind at 1.
  unfold mbind at 1. unfold M_bind at 1.
  rewrite He. reflexivity.
Qed.

Lemma setRoomMode_manual_unset (env : Collaborators) (recursionlimit : nat)
    (roomId : Z) (mode : string) (boost_temp : Q) (boost_temp_time : Z) (w w' : World)
    (room : Room.t) :
  lower mode = "manual" →
  getRoom env recursionlimit roomId w = (Return room, w') →
  Room.ScheduledSetPoint room = None →
  setRoomMode env recursionlimit roomId mode boost_temp boost_temp_time w =
    (Raise TypeError, w').
Proof.
  intros Hm Hroom Hsp. unfold setRoomMode. rewrite Hm.
  change (String.eqb "manual" "auto") with false.
  change (String.eqb "manual" "boost") with false.
  change (String.eqb "manual" "manual") with true.
  cbv beta iota.
  unfold mbind at 1. unfold M_bind at 1.
  unfold mbind at 1. unfold M_bind at 1.
  rewrite Hroom, Hsp. reflexivity.
Qed.

(** X15.  In manual mode on a cached document,
    [setRoomMode] fails before it sends anything when the document has no Room
    section ([WiserNoRoomsFound]), when no room has the id ([WiserNotFound])
    or when the room has no scheduled set-point ([TypeError]); the
    cancellation is not sent either. *)
Theorem setRoomMode_manual_fails_before_any_patch (env : Collaborators) (recursionlimit : nat)
    (roomId : Z) (mode : string) (boost_temp : Q) (boost_temp_time : Z) (w : World)
    (d : HubData.t) :
  lower mode = "manual" →
  wiserHubData (self w) = Some d →
  let run := setRoomMode env recursionlimit roomId mode boost_temp boost_temp_time w in
  (HubData.Room d = None →
   run = (Raise (WiserNoRoomsFound "No rooms found in Wiser payload"), w))
  ∧ (∀ rooms, HubData.Room d = Some rooms →
       find (λ room, bool_decide (Room.id room = Some roomId)) rooms = None →
       run = (Raise (WiserNotFound "Room {} not found"), w))
  ∧ (∀ rooms room, HubData.Room d = Some rooms →
       find (λ room, bool_decide (Room.id room = Some roomId)) rooms = Some room →
       Room.ScheduledSetPoint room = None →
       run = (Raise TypeError, w)).
Proof.
  intros Hm Hd run. subst run.
  pose proof (getRoom_cached env recursionlimit roomId w d Hd) as Hroom.
  split; [| split].
  - intros H. apply (setRoomMode_manual_room_error _ _ _ _ _ _ _ _ _ Hm).
    rewrite Hroom, H. reflexivity.
  - intros rooms H Hfind. apply (setRoomMode_manual_room_error _ _ _ _ _ _ _ _ _ Hm).
    rewrite Hroom, H, Hfind. reflexivity.
  - intros rooms room H Hfind Hsp. rewrite H, Hfind in Hroom.
    apply (setRoomMode_manual_unset _ _ _ _ _ _ _ _ room Hm Hroom Hsp).
Qed.

(** Witness for X15: no room has id 5. *)
Lemma setRoomMode_manual_fails_before_any_patch_witness :
  setRoomMode (Example.serving ["hall"]) 0 5 "manual" 20 30
    (Example.constructed (Example.serving ["hall"])) =
  (Raise (WiserNotFound "Room {} not found"), Example.constructed (Example.serving ["hall"])).
Proof.
  apply (proj1 (proj2 (setRoomMode_manual_fails_before_any_patch (Example.serving ["hall"]) 0 5
                         "manual" 20 30 (Example.constructed (Example.serving ["hall"]))
                         (Example.document [Example.hall]) eq_refl eq_refl))
           [Example.hall]);
    reflexivity.
Defined.

(** X16.  [setHomeAwayMode] checks its arguments before it sends
    anything.  The mode is compared as it is written, so that any spelling
    other than HOME or AWAY is refused; AWAY without a temperature, or with
    one outside 5 to 30 that is not -20, is refused as well; each time with
    [ValueError] and the world as it was. *)
Theorem setHomeAwayMode_validates_first (env : Collaborators) (mode : string)
    (temperature : option Q) (w : World) :
  (mode ≠ "HOME" → mode ≠ "AWAY" →
   setHomeAwayMode env mode temperature w =
     (Raise (ValueError "setAwayHome can only be HOME or AWAY"), w))
  ∧ (mode = "AWAY" → temperature = None →
     setHomeAwayMode env mode temperature w =
       (Raise (ValueError "setAwayHome set to AWAY but not temperature set"), w))
  ∧ (∀ t, mode = "AWAY" → temperature = Some t →
          (t < 5 ∨ 30 < t)%Q → ¬ (t == -20)%Q →
          setHomeAwayMode env mode temperature w =
            (Raise (ValueError
               "setAwayHome temperature can only be between {} and {} or {}(Off)"), w)).
Proof.
  split; [| split].
  - intros Hhome Haway. unfold setHomeAwayMode, string_in. cbn [existsb].
    apply String.eqb_neq in Hhome, Haway. rewrite Hhome, Haway. reflexivity.
  - intros -> ->. reflexivity.
  - intros t -> -> Hout Hoff. unfold setHomeAwayMode, string_in. cbn [existsb].
    change (String.eqb "AWAY" "AWAY") with true. cbv beta iota.
    change (String.eqb "AWAY" "HOME") with false. cbn [orb negb].
    rewrite (checkTempRange_rejects t Hout Hoff). reflexivity.
Qed.

(** Witness for X16: the mode in lower case. *)
Lemma setHomeAwayMode_validates_first_witness :
  setHomeAwayMode (Example.serving ["hall"]) "away" (Some 10%Q) Example.blank =
  (Raise (ValueError "setAwayHome can only be HOME or AWAY"), Example.blank).
Proof.
  apply (proj1 (setHomeAwayMode_validates_first (Example.serving ["hall"]) "away" (Some 10%Q)
                  Example.blank));
    discriminate.
Defined.



(** ** Smart plugs *)

Lemma smart_plug_patch_run (env : Collaborators) (url : Url) (json : Json) (w : World) :
  (response ← requests_patch env url json;
   if negb (status_code response =? 200)
   then
     if status_code response =? 404
     then raise (WiserNotFound "Set smart plug {} not found error")
     else raise (WiserRESTException "Error setting smartplug mode, msg {} , error {}")
   else mret tt) w =
  patch_once env url json smart_plug_failure w.
Proof.
  unfold patch_once, after, smart_plug_failure.
  cbv beta iota zeta delta [mbind M_bind mret M_ret raise requests_patch].
  destruct (respond env _) as [| | r]; try reflexivity.
  destruct (status_code r =? 200); [reflexivity |].
  destruct (status_code r =? 404); reflexivity.
Qed.

Lemma string_in_title_two (s a b : string) :
  title (lower a) = a → title (lower b) = b →
  string_in (title s) [a; b] = true ↔ (lower s = lower a ∨ lower s = lower b).
Proof.
  intros Ha Hb. unfold string_in. cbn [existsb]. rewrite orb_false_r, orb_true_iff.
  rewrite !String.eqb_eq.
  rewrite (title_eq_iff s a Ha), (title_eq_iff s b Hb). reflexivity.
Qed.

(** X18.  [setSmartPlugState] looks at the state up to case:
    every spelling of on sends the body with "On", every spelling of off the
    one with "Off", and anything else is refused with [ValueError] before a
    request is made.  A 404 answer becomes [WiserNotFound], any other answer
    that is not 200 [WiserRESTException]. *)
Theorem setSmartPlugState_ignores_case (env : Collaborators) (smartPlugId : Z)
    (smartPlugState : string) (w : World) :
  let url := format WISERSMARTPLUGURL [ArgStr (hubIP (self w)); ArgInt smartPlugId] in
  (lower smartPlugState = "on" →
   setSmartPlugState env smartPlugId smartPlugState w =
     patch_once env url (JDict [("RequestOutput", JStr "On")]) smart_plug_failure w)
  ∧ (lower smartPlugState = "off" →
     setSmartPlugState env smartPlugId smartPlugState w =
       patch_once env url (JDict [("RequestOutput", JStr "Off")]) smart_plug_failure w)
  ∧ (lower smartPlugState ≠ "on" → lower smartPlugState ≠ "off" →
     setSmartPlugState env smartPlugId smartPlugState w =
       (Raise (ValueError "SmartPlug State must be either On or Off"), w)).
Proof.
  intros url.
  pose proof (string_in_title_two smartPlugState "On" "Off" eq_refl eq_refl) as Hin.
  change (lower "On") with "on"%string in Hin. change (lower "Off") with "off"%string in Hin.
  assert (Hsend : ∀ word, title smartPlugState = word →
            string_in word ["On"; "Off"] = true →
            setSmartPlugState env smartPlugId smartPlugState w =
              patch_once env url (JDict [("RequestOutput", JStr word)]) smart_plug_failure w).
  { intros word Hword Hok. unfold setSmartPlugState. rewrite Hword, Hok. cbn [negb].
    unfold mbind at 1. unfold M_bind at 1. unfold get_self at 1. cbv beta iota zeta.
    apply smart_plug_patch_run. }
  split; [| split].
  - intros H. apply Hsend; [| reflexivity].
    apply (title_eq_iff smartPlugState "On" eq_refl). exact H.
  - intros H. apply Hsend; [| reflexivity].
    apply (title_eq_iff smartPlugState "Off" eq_refl). exact H.
  - intros Hon Hoff.
    assert (E : string_in (title smartPlugState) ["On"; "Off"] = false).
    { apply not_true_is_false. intros E. apply Hin in E. tauto. }
    unfold setSmartPlugState. rewrite E. reflexivity.
Qed.

(** Witness for X18: the state in capitals. *)
Lemma setSmartPlugState_ignores_case_witness :
  setSmartPlugState (Example.serving ["hall"]) 4 "ON" Example.blank =
  patch_once (Example.serving ["hall"])
    (format WISERSMARTPLUGURL [ArgStr (hubIP (self Example.blank)); ArgInt 4])
    (JDict [("RequestOutput", JStr "On")]) smart_plug_failure Example.blank.
Proof.
  apply (proj1 (setSmartPlugState_ignores_case (Example.serving ["hall"]) 4 "ON"
                  Example.blank)).
  reflexivity.
Defined.

(** X19.  [setSmartPlugMode] does the same with the modes auto
    and manual. *)
Theorem setSmartPlugMode_ignores_case (env : Collaborators) (smartPlugId : Z)
    (smartPlugMode : string) (w : World) :
  let url := format WISERSMARTPLUGURL [ArgStr (hubIP (self w)); ArgInt smartPlugId] in
  (lower smartPlugMode = "auto" →
   setSmartPlugMode env smartPlugId smartPlugMode w =
     patch_once env url (JDict [("Mode", JStr "Auto")]) smart_plug_failure w)
  ∧ (lower smartPlugMode = "manual" →
     setSmartPlugMode env smartPlugId smartPlugMode w =
       patch_once env url (JDict [("Mode", JStr "Manual")]) smart_plug_failure w)
  ∧ (lower smartPlugMode ≠ "auto" → lower smartPlugMode ≠ "manual" →
     setSmartPlugMode env smartPlugId smartPlugMode w =
       (Raise (ValueError "SmartPlug Mode must be either Auto or Manual"), w)).
Proof.
  intros url.
  pose proof (string_in_title_two smartPlugMode "Auto" "Manual" eq_refl eq_refl) as Hin.
  change (lower "Auto") with "auto"%string in Hin.
  change (lower "Manual") with "manual"%string in Hin.
  assert (Hsend : ∀ word, title smartPlugMode = word →
            string_in word ["Auto"; "Manual"] = true →
            setSmartPlugMode env smartPlugId smartPlugMode w =
              patch_once env url (JDict [("Mode", JStr word)]) smart_plug_failure w).
  { intros word Hword Hok. unfold setSmartPlugMode. rewrite Hword, Hok. cbn [negb].
    unfold mbind at 1. unfold M_bind at 1. unfold get_self at 1. cbv beta iota zeta.
    apply smart_plug_patch_run. }
  split; [| split].
  - intros H. apply Hsend; [| reflexivity].
    apply (title_eq_iff smartPlugMode "Auto" eq_refl). exact H.
  - intros H. apply Hsend; [| reflexivity].
    apply (title_eq_iff smartPlugMode "Manual" eq_refl). exact H.
  - intros Hauto Hmanual.
    assert (E : string_in (title smartPlugMode) ["Auto"; "Manual"] = false).
    { apply not_true_is_false. intros E. apply Hin in E. tauto. }
    unfold setSmartPlugMode. rewrite E. reflexivity.
Qed.

(** Witness for X19: a word that is no mode. *)
Lemma setSmartPlugMode_ignores_case_witness :
  setSmartPlugMode (Example.serving ["hall"]) 4 "maybe" Example.blank =
  (Raise (ValueError "SmartPlug Mode must be either Auto or Manual"), Example.blank).
Proof.
  apply (proj2 (proj2 (setSmartPlugMode_ignores_case (Example.serving ["hall"]) 4 "maybe"
                         Example.blank)));
    vm_compute; discriminate.
Defined.

(** X20.  [setRoomSchedule] on a cached document with rooms: an
    unknown room fails with [WiserNotFound] from [getRoom], a room without
    schedule id with [WiserNotFound] as well, both before any request; for a
    room with a schedule id the payload goes as it is in one PATCH to the
    schedule of that id. *)
Theorem setRoomSchedule_resolves_schedule (env : Collaborators) (recursionlimit : nat)
    (roomId : Z) (scheduleData : Json) (w : World) (d : HubData.t) (rooms : list Room.t) :
  wiserHubData (self w) = Some d →
  HubData.Room d = Some rooms →
  let run := setRoomSchedule env recursionlimit roomId scheduleData w in
  (find (λ room, bool_decide (Room.id room = Some roomId)) rooms = None →
   run = (Raise (WiserNotFound "Room {} not found"), w))
  ∧ (∀ room, find (λ room, bool_decide (Room.id room = Some roomId)) rooms = Some room →
       Room.ScheduleId room = None →
       run = (Raise (WiserNotFound "No schedule found that matches roomId"), w))
  ∧ (∀ room scheduleId,
       find (λ room, bool_decide (Room.id room = Some roomId)) rooms = Some room →
       Room.ScheduleId room = Some scheduleId →
       run = patch_once env
               (format WISERSCHEDULEURL [ArgStr (hubIP (self w)); ArgInt scheduleId])
               scheduleData
               (λ _, WiserRESTException "Error setting schedule for room {} , error {} {}")
               w).
Proof.
  intros Hd Hrooms run. subst run.
  pose proof (getRoom_cached env recursionlimit roomId w d Hd) as Hroom.
  rewrite Hrooms in Hroom.
  split; [| split].
  - intros Hfind. rewrite Hfind in Hroom. unfold setRoomSchedule. unfold_bind.
    rewrite Hroom. reflexivity.
  - intros room Hfind Hsid. rewrite Hfind in Hroom. unfold setRoomSchedule. unfold_bind.
    rewrite Hroom, Hsid. reflexivity.
  - intros room scheduleId Hfind Hsid. rewrite Hfind in Hroom. unfold setRoomSchedule.
    unfold mbind at 1. unfold M_bind at 1. rewrite Hroom, Hsid. cbv zeta.
    unfold mbind at 1. unfold M_bind at 1. unfold get_self at 1. cbv beta iota.
    apply (patch_once_run env _ _
             (λ _, WiserRESTException "Error setting schedule for room {} , error {} {}")).
Qed.

(** Witness for X20: the hall, whose schedule is 11. *)
Lemma setRoomSchedule_resolves_schedule_witness :
  setRoomSchedule (Example.serving ["hall"]) 0 1 (JDict [("Monday", JDict [])])
    (Example.constructed (Example.serving ["hall"])) =
  patch_once (Example.serving ["hall"])
    (format WISERSCHEDULEURL
       [ArgStr (hubIP (self (Example.constructed (Example.serving ["hall"])))); ArgInt 11])
    (JDict [("Monday", JDict [])])
    (λ _, WiserRESTException "Error setting schedule for room {} , error {} {}")
    (Example.constructed (Example.serving ["hall"])).
Proof.
  apply (proj2 (proj2 (setRoomSchedule_resolves_schedule (Example.serving ["hall"]) 0 1
                         (JDict [("Monday", JDict [])])
                         (Example.constructed (Example.serving ["hall"]))
                         (Example.document [Example.hall]) [Example.hall] eq_refl eq_refl))
           Example.hall 11);
    reflexivity.
Defined.

(** ** Commands and the object *)

Lemma only_patches_refl (w : World) : only_patches w w.
Proof. exists []. split; [symmetry; apply after_nil | constructor]. Qed.

Lemma only_patches_trans (w1 w2 w3 : World) :
  only_patches w1 w2 → only_patches w2 w3 → only_patches w1 w3.
Proof.
  intros (l1 & -> & H1) (l2 & -> & H2). exists (l1 ++ l2). split.
  - unfold after. cbn [self sent]. rewrite app_assoc. reflexivity.
  - apply Forall_app. split; assumption.
Qed.

Lemma only_patches_after (w : World) (url : Url) (json : Json) :
  only_patches w (after [PATCH url json] w).
Proof. exists [PATCH url json]. split; [reflexivity |]. repeat constructor. eauto. Qed.

Lemma quiet_ret {A} (a : A) : quiet (mret a).
Proof. intros w. apply only_patches_refl. Qed.

Lemma quiet_raise {A} (e : Exception) : quiet (raise e : M A).
Proof. intros w. apply only_patches_refl. Qed.

Lemma quiet_get_self : quiet get_self.
Proof. intros w. apply only_patches_refl. Qed.

Lemma quiet_bind {A B} (m : M A) (f : A → M B) :
  quiet m → (∀ a, quiet (f a)) → quiet (m ≫= f).
Proof.
  intros Hm Hf w. unfold mbind, M_bind. specialize (Hm w).
  destruct (m w) as [[e | a] w']; simpl in *; [exact Hm |].
  apply (only_patches_trans _ w'); [exact Hm | apply Hf].
Qed.

Lemma quiet_requests_patch (env : Collaborators) (url : Url) (json : Json) :
  quiet (requests_patch env url json).
Proof.
  intros w. unfold requests_patch.
  destruct (respond env _); simpl; apply only_patches_after.
Qed.

Lemma quiet_patch_and_check (env : Collaborators) (url : Url) (json : Json)
    (check : Response → M unit) :
  (∀ r, quiet (check r)) → quiet (requests_patch env url json ≫= check).
Proof. intros H. apply quiet_bind; [apply quiet_requests_patch | exact H]. Qed.

Lemma only_patches_patch_once (env : Collaborators) (url : Url) (json : Json)
    (failure : Response → Exception) (w : World) :
  only_patches w (snd (patch_once env url json failure w)).
Proof. rewrite patch_once_world. apply only_patches_after. Qed.

Lemma only_patches_cancel_then_patch (env : Collaborators) (roomId : Z) (patchData : Json)
    (w : World) :
  only_patches w (snd (cancel_then_patch env roomId patchData w)).
Proof.
  assert (H1 : only_patches w (after [PATCH (room_url (self w) roomId) cancelBoostPostData] w))
    by apply only_patches_after.
  assert (H2 : only_patches w
                 (after [PATCH (room_url (self w) roomId) cancelBoostPostData;
                         PATCH (room_url (self w) roomId) patchData] w)).
  { eexists. split; [reflexivity |]. repeat constructor; eauto. }
  unfold cancel_then_patch.
  destruct (respond env (sent w ++ [PATCH _ cancelBoostPostData])) as [| | r];
    [exact H1 | exact H1 |].
  destruct (status_code r =? 200); [| exact H1].
  destruct (respond env _) as [| | r']; [exact H2 | exact H2 |].
  destruct (status_code r' =? 200); exact H2.
Qed.

(** X21.  No command changes the object.  [setRoomTemperature],
    [setHomeAwayMode], the smart plug setters and [setSystemSwitch] leave the
    object as it is and add only PATCH requests to the log, however they end;
    so do [setRoomMode] and [setRoomSchedule] when a document is cached. *)
Theorem commands_only_add_patches (env : Collaborators) (recursionlimit : nat) (w : World)
    (id : Z) (word : string) (t : Q) (temperature : option Q) (json : Json)
    (boost_temp_time : Z) :
  only_patches w (snd (setRoomTemperature env id t w))
  ∧ only_patches w (snd (setHomeAwayMode env word temperature w))
  ∧ only_patches w (snd (setSmartPlugState env id word w))
  ∧ only_patches w (snd (setSmartPlugMode env id word w))
  ∧ only_patches w (snd (setSystemSwitch env word json w))
  ∧ (∀ d, wiserHubData (self w) = Some d →
          only_patches w (snd (setRoomMode env recursionlimit id word t boost_temp_time w))
          ∧ only_patches w (snd (setRoomSchedule env recursionlimit id json w))).
Proof.
  assert (Hcheck : ∀ (e1 : Exception) (r : Response),
            quiet (if negb (status_code r =? 200) then raise e1 else mret tt)).
  { intros e1 r. destruct (negb _); [apply quiet_raise | apply quiet_ret]. }
  split.
  { revert w. change (quiet (setRoomTemperature env id t)). unfold setRoomTemperature.
    destruct (negb (__checkTempRange t)); [apply quiet_raise |].
    apply quiet_bind; [apply quiet_get_self | intros o].
    apply quiet_patch_and_check. intros r. apply Hcheck. }
  split.
  { revert w. change (quiet (setHomeAwayMode env word temperature)). unfold setHomeAwayMode.
    destruct (negb (string_in word ["HOME"; "AWAY"])); [apply quiet_raise |].
    apply quiet_bind.
    { destruct (String.eqb word "AWAY"); [| apply quiet_ret].
      destruct temperature as [t' |]; [| apply quiet_raise].
      destruct (negb (__checkTempRange t')); [apply quiet_raise | apply quiet_ret]. }
    intros _. apply quiet_bind.
    { destruct (String.eqb word "AWAY"); [| apply quiet_ret].
      destruct temperature; [apply quiet_ret | apply quiet_raise]. }
    intros patchData. apply quiet_bind; [apply quiet_get_self | intros o].
    apply quiet_patch_and_check. intros r. apply Hcheck. }
  split.
  { revert w. change (quiet (setSmartPlugState env id word)). unfold setSmartPlugState.
    destruct (negb (string_in (title word) ["On"; "Off"])); [apply quiet_raise |].
    apply quiet_bind; [apply quiet_get_self | intros o].
    apply quiet_patch_and_check. intros r.
    destruct (negb _); [| apply quiet_ret].
    destruct (status_code r =? 404); apply quiet_raise. }
  split.
  { revert w. change (quiet (setSmartPlugMode env id word)). unfold setSmartPlugMode.
    destruct (negb (string_in (title word) ["Auto"; "Manual"])); [apply quiet_raise |].
    apply quiet_bind; [apply quiet_get_self | intros o].
    apply quiet_patch_and_check. intros r.
    destruct (negb _); [| apply quiet_ret].
    destruct (status_code r =? 404); apply quiet_raise. }
  split.
  { revert w. change (quiet (setSystemSwitch env word json)). unfold setSystemSwitch.
    apply quiet_bind; [apply quiet_get_self | intros o].
    apply quiet_patch_and_check. intros r. apply Hcheck. }
  intros d Hd. split.
  - destruct (String.eqb (lower word) "auto") eqn:Eauto.
    { apply String.eqb_eq in Eauto.
      rewrite (setRoomMode_auto env recursionlimit id word t boost_temp_time w Eauto).
      apply only_patches_cancel_then_patch. }
    destruct (String.eqb (lower word) "boost") eqn:Eboost.
    { apply String.eqb_eq in Eboost.
      rewrite (setRoomMode_boost env recursionlimit id word t boost_temp_time w Eboost).
      destruct (_ || _); [apply only_patches_refl |].
      cbv zeta.
      change (only_patches w
                (snd (patch_once env (room_url (self w) id) (boost_patch t boost_temp_time)
                        (λ _, WiserRESTException "Error setting mode to {}, error {} ") w))).
      apply only_patches_patch_once. }
    destruct (String.eqb (lower word) "manual") eqn:Emanual.
    { apply String.eqb_eq in Emanual.
      pose proof (getRoom_cached env recursionlimit id w d Hd) as Hroom.
      destruct (HubData.Room d) as [rooms |] eqn:Hrooms;
        [| rewrite (setRoomMode_manual_room_error _ _ _ _ _ _ _ _ _ Emanual Hroom);
           apply only_patches_refl].
      destruct (find (λ room, bool_decide (Room.id room = Some id)) rooms) as [room |] eqn:Hfind;
        [| rewrite (setRoomMode_manual_room_error _ _ _ _ _ _ _ _ _ Emanual Hroom);
           apply only_patches_refl].
      destruct (Room.ScheduledSetPoint room) as [scheduled |] eqn:Hsp;
        [| rewrite (setRoomMode_manual_unset _ _ _ _ _ _ _ _ room Emanual Hroom Hsp);
           apply only_patches_refl].
      rewrite (setRoomMode_manual env recursionlimit id word t boost_temp_time w d rooms room
                 scheduled Emanual Hd Hrooms Hfind Hsp).
      apply only_patches_cancel_then_patch. }
    destruct (String.eqb (lower word) "off") eqn:Eoff.
    { apply String.eqb_eq in Eoff.
      rewrite (setRoomMode_off env recursionlimit id word t boost_temp_time w Eoff).
      apply only_patches_cancel_then_patch. }
    unfold setRoomMode. rewrite Eauto, Eboost, Emanual, Eoff. apply only_patches_refl.
  - unfold setRoomSchedule. unfold mbind at 1. unfold M_bind at 1.
    rewrite (getRoom_cached env recursionlimit id w d Hd).
    destruct (HubData.Room d) as [rooms |]; [| apply only_patches_refl].
    destruct (find _ rooms) as [room |]; [| apply only_patches_refl].
    destruct (Room.ScheduleId room) as [scheduleId |]; [| apply only_patches_refl].
    cbv zeta. revert w Hd.
    assert (Hq : quiet (o ← get_self;
                        response ← requests_patch env
                          (format WISERSCHEDULEURL [ArgStr (hubIP o); ArgInt scheduleId]) json;
                        if negb (status_code response =? 200)
                        then raise (WiserRESTException
                                      "Error setting schedule for room {} , error {} {}")
                        else mret tt)).
    { apply quiet_bind; [apply quiet_get_self | intros o].
      apply quiet_patch_and_check. intros r. apply Hcheck. }
    intros w _. apply Hq.
Qed.

(** Witness for X21: switching the hall off. *)
Lemma commands_only_add_patches_witness :
  only_patches (Example.constructed (Example.serving ["hall"]))
    (snd (setRoomMode (Example.serving ["hall"]) 0 1 "off" 20 30
            (Example.constructed (Example.serving ["hall"])))).
Proof.
  apply (proj2 (proj2 (proj2 (proj2 (proj2
           (commands_only_add_patches (Example.serving ["hall"]) 0
              (Example.constructed (Example.serving ["hall"])) 1 "off" 20 None (JDict []) 30)))))
           (Example.document [Example.hall]) eq_refl).
Defined.
